(** * The soil-moisture server: persisted state and report archive

    A shallow embedding of [soil-moisture-server/server.js]: the sensor
    snapshot cache, the event log buffer, the three SQLite tables
    ([weekly_reports], [phase_logs], [daily_water_usage]) and the image
    directory, together with every route handler, written as functions from
    a request and a server state to a new state and an outcome.

    What lies outside [server.js] is kept abstract in the class [Host]: the
    date parser of the JavaScript engine, the way the sqlite3 driver binds a
    JavaScript value to a column, and the [path] module. Diagnostics written
    with [console.log] are left out, those written with [console.error] are
    kept; [insertWaterUsage], which no handler calls, is left out. *)

From Stdlib Require Import ZArith Ascii PrimFloat FloatOps SpecFloat DecimalString.
From stdpp Require Import gmap strings list fin_maps sorting.

Set Warnings "-register-all".
Local Open Scope Z_scope.

(** ** JavaScript values *)

(** The values that reach the handlers (parsed query strings, JSON and
    multipart bodies) and the values they hand to [res.json]. *)
Inductive jsval : Type :=
| JUndefined
| JNull
| JBool (b : bool)
| JNum (x : float)
| JStr (s : string)
| JArr (items : list jsval)
| JObj (fields : list (string * jsval)).

(** ToBoolean: what [!v] and [v || w] test. *)
Definition truthy (v : jsval) : bool :=
  match v with
  | JUndefined | JNull => false
  | JBool b => b
  | JNum x => negb (PrimFloat.eqb x 0%float || PrimFloat.is_nan x)
  | JStr s => negb (String.eqb s "")
  | JArr _ | JObj _ => true
  end.

(** [a || b] when evaluating [b] cannot throw. *)
Definition js_or (a b : jsval) : jsval := if truthy a then a else b.

(** [v !== undefined] *)
Definition defined (v : jsval) : bool :=
  match v with JUndefined => false | _ => true end.

(** Reading a property of a request object ([req.query], [req.body]) by
    destructuring: a missing key reads as [undefined]. *)
Definition js_get (o : gmap string jsval) (k : string) : jsval :=
  default JUndefined (o !! k).

(** Reading a property of an object literal, as a client of a response does. *)
Fixpoint assoc (k : string) (fields : list (string * jsval)) : option jsval :=
  match fields with
  | [] => None
  | (k', v) :: rest => if String.eqb k k' then Some v else assoc k rest
  end.

(** The Number that holds an integer: the nearest double, ties to even. *)
Definition number_of_Z (z : Z) : float :=
  SF2Prim (binary_normalize prec emax z 0 false).

(** Evaluation of an expression either yields a value or throws. *)
Inductive completion (A : Type) : Type :=
| Normal (a : A)
| Throw (exn : string).
Arguments Normal {A} a.
Arguments Throw {A} exn.

(** ** The host: engine, driver and [path] *)

(** The storage classes a bound request value can take in a column. *)
Inductive sqlval : Type :=
| SqlInteger (z : Z)
| SqlReal (x : float)
| SqlText (s : string).

Class Host : Type := {
  (** [Date.parse(v)]: the time value in milliseconds, [None] for [NaN]. *)
  Date_parse : jsval -> option Z;
  (** The text stored when [v] is bound to a parameter that lands in a
      column of TEXT affinity; [None] is SQL NULL. *)
  bind_text : jsval -> option string;
  (** The same for a column of NUMERIC affinity ([report_date DATE]). *)
  bind_numeric : jsval -> option sqlval;
  (** The rowid that [id = ?] compares equal to when [?] is bound to the
      text of a route parameter, if that text converts to an integer. *)
  rowid_of_text : string -> option Z;
  (** [path.extname] and [path.join]. *)
  path_extname : string -> string;
  path_join : string -> string -> string;
  bind_text_string : forall s, bind_text (JStr s) = Some s;
  bind_text_null : bind_text JNull = None;
  bind_text_truthy : forall v, truthy v = true -> is_Some (bind_text v);
  bind_numeric_truthy : forall v, truthy v = true -> is_Some (bind_numeric v)
}.

(** A column value as the driver returns it in a row object. *)
Definition js_of_text (c : option string) : jsval :=
  match c with Some s => JStr s | None => JNull end.

Definition js_of_sql (c : sqlval) : jsval :=
  match c with
  | SqlInteger z => JNum (number_of_Z z)
  | SqlReal x => JNum x
  | SqlText s => JStr s
  end.

(** ** Tables *)

(** A table declared [id INTEGER PRIMARY KEY AUTOINCREMENT]: the rows keyed
    by rowid, and the table's entry in [sqlite_sequence]. *)
Record table (R : Type) : Type := Table {
  rows : gmap Z R;
  seq : Z
}.
Arguments Table {R} rows seq.
Arguments rows {R} t.
Arguments seq {R} t.

Definition empty_table {R : Type} : table R := Table ∅ 0.

(** A statement either succeeds or reports an error message. *)
Inductive result (A : Type) : Type :=
| Ok (a : A)
| Err (message : string).
Arguments Ok {A} a.
Arguments Err {A} message.

Fixpoint greatest (l : list Z) : option Z :=
  match l with
  | [] => None
  | k :: l' => Some (match greatest l' with
                     | None => k
                     | Some k' => Z.max k k'
                     end)
  end.

(** The largest rowid present. *)
Definition max_rowid {R : Type} (t : table R) : option Z :=
  greatest (map_to_list (rows t)).*1.

Definition MAX_ROWID : Z := 9223372036854775807.

(** [INSERT] without an explicit id: AUTOINCREMENT takes one more than the
    largest rowid the table has ever held, and fails once that is the
    largest 64-bit integer. On success [this.lastID] is the new rowid. *)
Definition insert_row {R : Type} (r : R) (t : table R) : result (table R * Z) :=
  let top := Z.max (seq t) (default 0 (max_rowid t)) in
  if decide (MAX_ROWID <= top) then Err "SQLITE_FULL: database or disk is full"
  else Ok (Table (<[top + 1 := r]> (rows t)) (top + 1), top + 1).

(** [SELECT ... WHERE id = ?] through [db.get]: the row, or [undefined]. *)
Definition select_by_id `{Host} {R : Type} (id : string) (t : table R) : option (Z * R) :=
  k ← rowid_of_text id; r ← rows t !! k; Some (k, r).

(** [UPDATE ... WHERE id = ?]: no matching row is not an error. *)
Definition update_by_id `{Host} {R : Type} (id : string) (r : R) (t : table R) : table R :=
  match select_by_id id t with
  | Some (k, _) => Table (<[k := r]> (rows t)) (seq t)
  | None => t
  end.

(** [DELETE ... WHERE id = ?]: no matching row is not an error. *)
Definition delete_by_id `{Host} {R : Type} (id : string) (t : table R) : table R :=
  match rowid_of_text id with
  | Some k => Table (delete k (rows t)) (seq t)
  | None => t
  end.

(** A full scan visits the rows in rowid order. *)
Definition rowid_le {R : Type} (a b : Z * R) : Prop := a.1 <= b.1.

#[global] Instance rowid_le_dec {R : Type} : RelDecision (@rowid_le R).
Proof. intros a b. unfold rowid_le. apply _. Defined.

Definition scan {R : Type} (t : table R) : list (Z * R) :=
  merge_sort rowid_le (map_to_list (rows t)).

(** [ORDER BY id DESC LIMIT 1] *)
Definition last_row {R : Type} (t : table R) : option (Z * R) :=
  k ← max_rowid t; r ← rows t !! k; Some (k, r).

(** ** Rows *)

Record report : Type := Report {
  title : string;                (* TEXT NOT NULL *)
  report_date : sqlval;          (* DATE NOT NULL *)
  image : option string;         (* TEXT *)
  description : option string    (* TEXT *)
}.

Record phase_log : Type := PhaseLog {
  phase : string;                (* TEXT NOT NULL *)
  start_date : string            (* TEXT NOT NULL *)
}.

Record water_usage_row : Type := WaterUsage {
  date : string;                 (* TEXT NOT NULL *)
  water_usage : float            (* REAL NOT NULL *)
}.

(** The row objects of [SELECT *] and of the two phase queries. *)
Definition report_object (kr : Z * report) : jsval :=
  JObj [("id", JNum (number_of_Z kr.1));
        ("title", JStr (title kr.2));
        ("report_date", js_of_sql (report_date kr.2));
        ("image", js_of_text (image kr.2));
        ("description", js_of_text (description kr.2))].

Definition phase_object (r : phase_log) : jsval :=
  JObj [("phase", JStr (phase r)); ("start_date", JStr (start_date r))].

(** TEXT values compare bytewise (the BINARY collation); [ORDER BY
    start_date DESC] puts the larger text first. The query fixes no order
    among rows of equal [start_date]. *)
Definition start_date_desc (a b : Z * phase_log) : Prop :=
  String.le (start_date b.2) (start_date a.2).

#[global] Instance start_date_desc_dec : RelDecision start_date_desc.
Proof. intros a b. unfold start_date_desc. apply _. Defined.

Definition order_by_start_date_desc (t : table phase_log) : list (Z * phase_log) :=
  merge_sort start_date_desc (scan t).

(** ** Server state *)

(** [sensorData]: the single cached snapshot. *)
Record snapshot : Type := Snapshot {
  averageMoisture : jsval;
  relayStatus : jsval;
  sensor1 : jsval;
  sensor2 : jsval;
  sensor3 : jsval;
  sensor4 : jsval;
  sensor5 : jsval;
  sensor6 : jsval;
  sensor7 : jsval;
  sensor8 : jsval;
  sensor9 : jsval
}.

Definition snapshot_object (d : snapshot) : jsval :=
  JObj [("averageMoisture", averageMoisture d);
        ("relayStatus", relayStatus d);
        ("sensor1", sensor1 d); ("sensor2", sensor2 d); ("sensor3", sensor3 d);
        ("sensor4", sensor4 d); ("sensor5", sensor5 d); ("sensor6", sensor6 d);
        ("sensor7", sensor7 d); ("sensor8", sensor8 d); ("sensor9", sensor9 d)].

(** The process memory ([sensorData], [logs]), the database file, the image
    directory, and what [console.error] has written. *)
Record state : Type := State {
  sensorData : snapshot;
  logs : list jsval;
  weekly_reports : table report;
  phase_logs : table phase_log;
  daily_water_usage : table water_usage_row;
  images : gset string;
  stderr : list string
}.

(** What a request meets besides the state: the clock, and the failures the
    storage layer and the file system may report. [storage_error n] is the
    error of the request's [n]-th statement, if the statement fails for a
    reason of the storage layer's own. *)
Record env : Type := Env {
  now_iso : string;              (* new Date().toISOString() *)
  now_ms : N;                    (* Date.now() *)
  today_local : string;          (* DATE('now', 'localtime') *)
  storage_error : nat -> option string;
  unlink_error : option string
}.

(** A file received by [upload.single('reportImage')]. *)
Record upload : Type := Upload {
  originalname : string
}.

Inductive request : Type :=
| GET_update (query : gmap string jsval)
| POST_log (body : gmap string jsval)
| GET_data
| GET_today_log
| POST_upload_report (body : gmap string jsval) (file : option upload)
| GET_weekly_reports
| PUT_update_report (id : string) (body : gmap string jsval) (file : option upload)
| DELETE_delete_report (id : string)
| GET_report (id : string)
| POST_set_phase (body : gmap string jsval)
| GET_current_phase
| GET_phase_logs
| GET_water_usage_today.

Inductive payload : Type :=
| Text (s : string)              (* res.send(s) *)
| Json (v : jsval).              (* res.json(v) *)

(** A handler either answers, or an exception escapes a driver callback,
    which nothing catches: the process ends. *)
Inductive outcome : Type :=
| Response (status : nat) (sent : payload)
| Uncaught (exn : string).

Definition error_body (reason : string) : payload :=
  Json (JObj [("error", JStr reason)]).

Definition message_body (text : string) : payload :=
  Json (JObj [("message", JStr text)]).

Definition log_error (line : string) (st : state) : state :=
  State (sensorData st) (logs st) (weekly_reports st) (phase_logs st)
        (daily_water_usage st) (images st) (stderr st ++ [line]).

Definition with_sensorData (d : snapshot) (st : state) : state :=
  State d (logs st) (weekly_reports st) (phase_logs st)
        (daily_water_usage st) (images st) (stderr st).

Definition with_logs (l : list jsval) (st : state) : state :=
  State (sensorData st) l (weekly_reports st) (phase_logs st)
        (daily_water_usage st) (images st) (stderr st).

Definition with_weekly_reports (t : table report) (st : state) : state :=
  State (sensorData st) (logs st) t (phase_logs st)
        (daily_water_usage st) (images st) (stderr st).

Definition with_phase_logs (t : table phase_log) (st : state) : state :=
  State (sensorData st) (logs st) (weekly_reports st) t
        (daily_water_usage st) (images st) (stderr st).

Definition with_images (fs : gset string) (st : state) : state :=
  State (sensorData st) (logs st) (weekly_reports st) (phase_logs st)
        (daily_water_usage st) fs (stderr st).

(** ** The upload storage (lines 24-32) *)

Definition image_path `{Host} (name : string) : string :=
  path_join "public/images" name.

(** [filename]: [Date.now() + path.extname(file.originalname)]. *)
Definition filename `{Host} (e : env) (f : upload) : string :=
  NilZero.string_of_uint (N.to_uint (now_ms e)) +:+ path_extname (originalname f).

(** [upload.single('reportImage')] runs before the handler: a received file
    is written under its generated name. *)
Definition stage `{Host} (e : env) (file : option upload) (st : state) : state :=
  match file with
  | Some f => with_images ({[image_path (filename e f)]} ∪ images st) st
  | None => st
  end.

(** [req.file ? req.file.filename : null] *)
Definition uploaded_image `{Host} (e : env) (file : option upload) : jsval :=
  match file with
  | Some f => JStr (filename e f)
  | None => JNull
  end.

(** ** Start-up (lines 9-82) *)

Definition initial_snapshot : snapshot :=
  Snapshot JNull JNull JNull JNull JNull JNull JNull JNull JNull JNull JNull.

(** A database file that does not exist yet and an empty image directory. *)
Definition blank : state :=
  State initial_snapshot [] empty_table empty_table empty_table ∅ [].

(** Start of the process on what a previous run left on disk. The tables
    are created if missing; [phase_logs] is counted and, when empty, seeded.
    The count callback reads [row.count] without looking at [err], and the
    seeding statement has no callback: a failure of either is an exception
    that nothing catches. *)
Definition boot (e : env) (disk : state) : completion state :=
  let st := State initial_snapshot [] (weekly_reports disk) (phase_logs disk)
                  (daily_water_usage disk) (images disk) (stderr disk) in
  match storage_error e 0%nat with
  | Some _ => Throw "TypeError: Cannot read properties of undefined (reading 'count')"
  | None =>
      if decide (size (rows (phase_logs st)) = 0%nat) then
        match storage_error e 1%nat with
        | Some msg => Throw msg
        | None =>
            match insert_row (PhaseLog "vegetative" (now_iso e)) (phase_logs st) with
            | Ok (t, _) => Normal (with_phase_logs t st)
            | Err msg => Throw msg
            end
        end
      else Normal st
  end.

(** ** The handlers *)

Definition NA : jsval := JStr "N/A".

(** [app.get('/update')], lines 89-112 *)
Definition get_update (query : gmap string jsval) (st : state) : state * outcome :=
  let moisture := js_get query "moisture" in
  let status := js_get query "status" in
  if defined moisture && defined status then
    (with_sensorData
       (Snapshot moisture status
          (js_or (js_get query "sensor1") NA) (js_or (js_get query "sensor2") NA)
          (js_or (js_get query "sensor3") NA) (js_or (js_get query "sensor4") NA)
          (js_or (js_get query "sensor5") NA) (js_or (js_get query "sensor6") NA)
          (js_or (js_get query "sensor7") NA) (js_or (js_get query "sensor8") NA)
          (js_or (js_get query "sensor9") NA)) st,
     Response 200 (Text "Data received"))
  else (st, Response 400 (Text "Invalid data")).

(** [app.post('/log')], lines 115-124 *)
Definition post_log (e : env) (body : gmap string jsval) (st : state) : state * outcome :=
  let timestamp := now_iso e in
  (with_logs (logs st ++ [JObj [("time", JStr timestamp);
                                ("moisture", js_get body "moisture");
                                ("relayStatus", js_get body "relayStatus");
                                ("lastSensor", js_get body "lastSensor")]]) st,
   Response 200 (Text "Log received")).

(** [app.get('/data')], lines 129-131 *)
Definition get_data (st : state) : state * outcome :=
  (st, Response 200 (Json (snapshot_object (sensorData st)))).

(** [app.get('/today-log')], lines 134-136 *)
Definition get_today_log (st : state) : state * outcome :=
  (st, Response 200 (Json (JArr (logs st)))).

(** The row that the four bound values make, or the NOT NULL constraint
    that rejects them. *)
Definition bind_report `{Host} (title reportDate image description : jsval) : result report :=
  match bind_text title with
  | None => Err "SQLITE_CONSTRAINT: NOT NULL constraint failed: weekly_reports.title"
  | Some t =>
      match bind_numeric reportDate with
      | None => Err "SQLITE_CONSTRAINT: NOT NULL constraint failed: weekly_reports.report_date"
      | Some d => Ok (Report t d (bind_text image) (bind_text description))
      end
  end.

(** [app.post('/upload-report')], lines 139-153 *)
Definition post_upload_report `{Host} (e : env) (body : gmap string jsval)
    (file : option upload) (st : state) : state * outcome :=
  let st := stage e file st in
  let title := js_get body "title" in
  let description := js_get body "description" in
  let reportDate := js_get body "reportDate" in
  let image := uploaded_image e file in
  match storage_error e 0%nat with
  | Some msg => (st, Response 500 (error_body msg))
  | None =>
      match bind_report title reportDate image description with
      | Err msg => (st, Response 500 (error_body msg))
      | Ok r =>
          match insert_row r (weekly_reports st) with
          | Err msg => (st, Response 500 (error_body msg))
          | Ok (t, _) =>
              (with_weekly_reports t st,
               Response 200 (message_body "Report saved successfully"))
          end
      end
  end.

(** [app.get('/weekly-reports')], lines 156-163 *)
Definition get_weekly_reports (e : env) (st : state) : state * outcome :=
  match storage_error e 0%nat with
  | Some msg => (st, Response 500 (error_body msg))
  | None => (st, Response 200 (Json (JArr (report_object <$> scan (weekly_reports st)))))
  end.

(** [row.image], where [row] is what [db.get] passed to its callback. *)
Definition row_image (row : option (Z * report)) : completion jsval :=
  match row with
  | Some (_, r) => Normal (js_of_text (image r))
  | None => Throw "TypeError: Cannot read properties of undefined (reading 'image')"
  end.

(** [app.put('/update-report/:id')], lines 170-201 *)
Definition put_update_report `{Host} (e : env) (id : string) (body : gmap string jsval)
    (file : option upload) (st : state) : state * outcome :=
  let st := stage e file st in
  let title := js_get body "title" in
  let reportDate := js_get body "reportDate" in
  let description := js_get body "description" in
  let image := uploaded_image e file in
  if negb (truthy title) || negb (truthy reportDate) || negb (truthy description) then
    (st, Response 400 (error_body "Title, date, and description are required."))
  else
    match storage_error e 0%nat with
    | Some _ => (st, Response 500 (error_body "Failed to retrieve the current report."))
    | None =>
        let row := select_by_id id (weekly_reports st) in
        (* the parameter array is built before [db.run] is called;
           [image || row.image] reads [row] only when [image] is null *)
        match (if truthy image then Normal image else row_image row) with
        | Throw exn => (st, Uncaught exn)
        | Normal image_or_row_image =>
            match storage_error e 1%nat with
            | Some _ =>
                (st, Response 500 (error_body "Failed to update the report in the database."))
            | None =>
                match bind_report title reportDate image_or_row_image description with
                | Err _ =>
                    (st, Response 500 (error_body "Failed to update the report in the database."))
                | Ok r =>
                    (with_weekly_reports (update_by_id id r (weekly_reports st)) st,
                     Response 200 (message_body "Report updated successfully"))
                end
            end
        end
    end.

(** [fs.unlink(path, callback)] with the callback of lines 215-217: the
    file is removed, or the failure is written to the error stream. *)
Definition unlink (e : env) (path : string) (st : state) : state :=
  match unlink_error e with
  | Some msg => log_error ("Failed to delete image: " +:+ msg) st
  | None =>
      if decide (path ∈ images st) then with_images (images st ∖ {[path]}) st
      else log_error ("Failed to delete image: ENOENT: no such file or directory") st
  end.

(** [app.delete('/delete-report/:id')], lines 204-228 *)
Definition delete_delete_report `{Host} (e : env) (id : string) (st : state) : state * outcome :=
  match storage_error e 0%nat with
  | Some msg => (st, Response 500 (error_body msg))
  | None =>
      let row := select_by_id id (weekly_reports st) in
      let st :=
        match row with
        | Some (_, Report _ _ (Some name) _) =>
            if truthy (JStr name) then unlink e (image_path name) st else st
        | _ => st
        end in
      match storage_error e 1%nat with
      | Some msg => (st, Response 500 (error_body msg))
      | None =>
          (with_weekly_reports (delete_by_id id (weekly_reports st)) st,
           Response 200 (message_body "Report deleted successfully"))
      end
  end.

(** [app.get('/report/:id')], lines 231-245 *)
Definition get_report `{Host} (e : env) (id : string) (st : state) : state * outcome :=
  match storage_error e 0%nat with
  | Some _ => (st, Response 500 (error_body "Failed to retrieve the report."))
  | None =>
      match select_by_id id (weekly_reports st) with
      | None => (st, Response 404 (error_body "Report not found."))
      | Some row => (st, Response 200 (Json (report_object row)))
      end
  end.

(** [app.post('/set-phase')], lines 247-265 *)
Definition post_set_phase `{Host} (e : env) (body : gmap string jsval) (st : state)
    : state * outcome :=
  let phase := js_get body "phase" in
  let startDate := js_get body "startDate" in
  if negb (truthy phase) || negb (truthy startDate) then
    (st, Response 400 (error_body "Phase and startDate are required"))
  else
    match Date_parse startDate with
    | None => (st, Response 400 (error_body "Invalid startDate format"))
    | Some _ =>
        let failed msg :=
          (log_error ("Error inserting phase log: " +:+ msg) st,
           Response 500 (error_body "Failed to set phase")) in
        match storage_error e 0%nat with
        | Some msg => failed msg
        | None =>
            match bind_text phase, bind_text startDate with
            | Some p, Some d =>
                match insert_row (PhaseLog p d) (phase_logs st) with
                | Ok (t, lastID) =>
                    (with_phase_logs t st,
                     Response 200 (Json (JObj [("id", JNum (number_of_Z lastID));
                                               ("phase", phase);
                                               ("startDate", startDate)])))
                | Err msg => failed msg
                end
            | None, _ =>
                failed "SQLITE_CONSTRAINT: NOT NULL constraint failed: phase_logs.phase"
            | _, None =>
                failed "SQLITE_CONSTRAINT: NOT NULL constraint failed: phase_logs.start_date"
            end
        end
    end.

(** [app.get('/current-phase')], lines 267-278 *)
Definition get_current_phase (e : env) (st : state) : state * outcome :=
  match storage_error e 0%nat with
  | Some msg =>
      (log_error ("Error fetching current phase: " +:+ msg) st,
       Response 500 (error_body "Failed to fetch current phase"))
  | None =>
      match last_row (phase_logs st) with
      | None => (st, Response 404 (error_body "No phase data found"))
      | Some (_, row) =>
          (st, Response 200 (Json (JObj [("phase", JStr (phase row));
                                         ("startDate", JStr (start_date row))])))
      end
  end.

(** [app.get('/phase-logs')], lines 281-290 *)
Definition get_phase_logs (e : env) (st : state) : state * outcome :=
  match storage_error e 0%nat with
  | Some msg =>
      (log_error ("Error fetching phase logs: " +:+ msg) st,
       Response 500 (error_body "Failed to fetch phase logs"))
  | None =>
      (st, Response 200
             (Json (JArr ((fun kr => phase_object kr.2)
                            <$> order_by_start_date_desc (phase_logs st)))))
  end.

(** [app.get('/water-usage-today')], lines 292-308 *)
Definition get_water_usage_today (e : env) (st : state) : state * outcome :=
  match storage_error e 0%nat with
  | Some msg => (log_error msg st, Response 500 (error_body "Internal Server Error"))
  | None =>
      match filter (fun kr => date kr.2 = today_local e) (scan (daily_water_usage st)) with
      | (_, row) :: _ =>
          (st, Response 200 (Json (JObj [("waterUsage", JNum (water_usage row))])))
      | [] => (st, Response 200 (Json (JObj [("waterUsage", JNum 0%float)])))
      end
  end.

(** ** The server *)

Definition handle `{Host} (e : env) (req : request) (st : state) : state * outcome :=
  match req with
  | GET_update query => get_update query st
  | POST_log body => post_log e body st
  | GET_data => get_data st
  | GET_today_log => get_today_log st
  | POST_upload_report body file => post_upload_report e body file st
  | GET_weekly_reports => get_weekly_reports e st
  | PUT_update_report id body file => put_update_report e id body file st
  | DELETE_delete_report id => delete_delete_report e id st
  | GET_report id => get_report e id st
  | POST_set_phase body => post_set_phase e body st
  | GET_current_phase => get_current_phase e st
  | GET_phase_logs => get_phase_logs e st
  | GET_water_usage_today => get_water_usage_today e st
  end.

(** The requests in arrival order. After an uncaught exception there is no
    process to serve the rest. *)
Fixpoint serve `{Host} (reqs : list (env * request)) (st : state) : state * list outcome :=
  match reqs with
  | [] => (st, [])
  | (e, req) :: rest =>
      match handle e req st with
      | (st', Uncaught exn) => (st', [Uncaught exn])
      | (st', answer) =>
          let (st'', answers) := serve rest st' in (st'', answer :: answers)
      end
  end.

(** The write operations of the interface. *)
Definition is_write (req : request) : bool :=
  match req with
  | GET_update _ | POST_log _ | POST_upload_report _ _ | PUT_update_report _ _ _
  | DELETE_delete_report _ | POST_set_phase _ => true
  | _ => false
  end.

Definition answered (status : nat) (o : outcome) : Prop :=
  exists sent, o = Response status sent.

(** A response body that is an object with the property [k]. *)
Definition property (k : string) (sent : payload) : option jsval :=
  match sent with
  | Json (JObj fields) => assoc k fields
  | _ => None
  end.

(** ** A reference host

    A host to run the handlers on. Its [Date.parse] reads the date-time
    string format of the language standard, [YYYY-MM-DD] alone or followed
    by [THH:mm], [THH:mm:ss] or [THH:mm:ss.sss] and by [Z] or an offset
    [+HH:mm] / [-HH:mm]; local time is UTC. Engines accept further,
    implementation-defined forms, which this host rejects. Its driver
    binds strings, [null] and [undefined] as the sqlite3 driver does; the
    text it stores for a boolean, a number or an object is a stand-in. *)

Definition digit (c : Ascii.ascii) : option Z :=
  let n := Z.of_N (Ascii.N_of_ascii c) in
  if decide (48 <= n <= 57) then Some (n - 48) else None.

(** Exactly [n] decimal digits. *)
Fixpoint number (n : nat) (acc : Z) (s : string) : option (Z * string) :=
  match n with
  | O => Some (acc, s)
  | S n' =>
      match s with
      | String c s' => d ← digit c; number n' (10 * acc + d) s'
      | EmptyString => None
      end
  end.

Definition expect (c : Ascii.ascii) (s : string) : option string :=
  match s with
  | String c' s' => if Ascii.eqb c c' then Some s' else None
  | EmptyString => None
  end.

(** Days from 1970-01-01 to the given day of the proleptic Gregorian
    calendar. *)
Definition days_from_civil (y m d : Z) : Z :=
  let y' := if decide (m <= 2) then y - 1 else y in
  let era := y' / 400 in
  let yoe := y' - era * 400 in
  let doy := (153 * (if decide (m <= 2) then m + 9 else m - 3) + 2) / 5 + d - 1 in
  let doe := yoe * 365 + yoe / 4 - yoe / 100 + doy in
  era * 146097 + doe - 719468.

(** The offset from UTC, in minutes. *)
Definition parse_offset (s : string) : option Z :=
  match s with
  | EmptyString => Some 0
  | String c s' =>
      if Ascii.eqb c "Z"%char then (if String.eqb s' "" then Some 0 else None)
      else
        sign ← (if Ascii.eqb c "+"%char then Some 1
                else if Ascii.eqb c "-"%char then Some (-1) else None);
        '(h, s1) ← number 2 0 s';
        s2 ← expect ":"%char s1;
        '(m, s3) ← number 2 0 s2;
        if String.eqb s3 "" then Some (sign * (60 * h + m)) else None
  end.

(** The milliseconds into the day and the offset, read after the [T]. *)
Definition parse_time (s : string) : option (Z * Z) :=
  '(h, s1) ← number 2 0 s;
  s2 ← expect ":"%char s1;
  '(mi, s3) ← number 2 0 s2;
  '(sec, s4) ← match expect ":"%char s3 with
               | Some s' => number 2 0 s'
               | None => Some (0, s3)
               end;
  '(ms, s5) ← match expect "."%char s4 with
              | Some s' => number 3 0 s'
              | None => Some (0, s4)
              end;
  off ← parse_offset s5;
  if decide (h <= 24 ∧ mi <= 59 ∧ sec <= 59)
  then Some (((h * 60 + mi) * 60 + sec) * 1000 + ms, off)
  else None.

Definition parse_iso (s : string) : option Z :=
  '(y, s1) ← number 4 0 s;
  s2 ← expect "-"%char s1;
  '(m, s3) ← number 2 0 s2;
  s4 ← expect "-"%char s3;
  '(d, s5) ← number 2 0 s4;
  '(t, off) ← match s5 with
              | EmptyString => Some (0, 0)
              | String c s' => if Ascii.eqb c "T"%char then parse_time s' else None
              end;
  if decide (1 <= m <= 12 ∧ 1 <= d <= 31)
  then Some (days_from_civil y m d * 86400000 + t - off * 60000)
  else None.

Definition reference_Date_parse (v : jsval) : option Z :=
  match v with
  | JStr s => parse_iso s
  | _ => None
  end.

Definition reference_bind_text (v : jsval) : option string :=
  match v with
  | JUndefined | JNull => None
  | JStr s => Some s
  | JBool b => Some (if b then "1" else "0")
  | JNum _ => Some "0.0"
  | JArr _ | JObj _ => Some "[object Object]"
  end.

Definition reference_bind_numeric (v : jsval) : option sqlval :=
  match v with
  | JUndefined | JNull => None
  | JStr s => Some (SqlText s)
  | JBool b => Some (SqlInteger (if b then 1 else 0))
  | JNum x => Some (SqlReal x)
  | JArr _ | JObj _ => Some (SqlText "[object Object]")
  end.

(** The text of a rowid in decimal. *)
Definition reference_rowid_of_text (s : string) : option Z :=
  Z.of_int <$> NilEmpty.int_of_string s.

(** [path.extname] and [path.join] on plain file names. *)
Fixpoint after_last_dot (s : string) : option string :=
  match s with
  | EmptyString => None
  | String c s' =>
      match after_last_dot s' with
      | Some ext => Some ext
      | None => if Ascii.eqb c "."%char then Some s else None
      end
  end.

Definition reference_extname (s : string) : string :=
  match s with
  | EmptyString => ""
  | String _ s' => default "" (after_last_dot s')
  end.

Definition reference_join (dir name : string) : string :=
  dir +:+ "/" +:+ name.

#[global] Instance reference_host : Host := {|
  Date_parse := reference_Date_parse;
  bind_text := reference_bind_text;
  bind_numeric := reference_bind_numeric;
  rowid_of_text := reference_rowid_of_text;
  path_extname := reference_extname;
  path_join := reference_join;
  bind_text_string := fun _ => eq_refl;
  bind_text_null := eq_refl;
  bind_text_truthy := ltac:(intros []; simpl; intros; eauto; discriminate);
  bind_numeric_truthy := ltac:(intros []; simpl; intros; eauto; discriminate)
|}.

Definition quiet (iso : string) (ms : N) : env :=
  Env iso ms "2024-06-01" (fun _ => None) None.

(** A sequence of [setPhase] calls, each with the environment it meets. *)
Definition set_phase_calls (calls : list (env * gmap string jsval)) : list (env * request) :=
  (fun c => (c.1, POST_set_phase c.2)) <$> calls.

(** ** Sample requests *)

Definition flowering_in_july : env * gmap string jsval :=
  (quiet "2024-07-01T08:00:00.000Z" 1719820800000,
   {["phase" := JStr "flowering"; "startDate" := JStr "2024-07-01"]}).

Definition vegetative_in_march : env * gmap string jsval :=
  (quiet "2024-07-02T08:00:00.000Z" 1719907200000,
   {["phase" := JStr "vegetative"; "startDate" := JStr "2024-03-15"]}).

(** The first start of the server, on a blank disk. *)
Definition first_start : env := quiet "2023-06-01T00:00:00.000Z" 1685577600000.

Definition seeded : state :=
  match boot first_start blank with
  | Normal st => st
  | Throw _ => blank
  end.

(** Midnight UTC, and half an hour earlier written with an offset. *)
Definition flowering_at_midnight_utc : env * gmap string jsval :=
  (quiet "2024-01-02T09:00:00.000Z" 1704186000000,
   {["phase" := JStr "flowering"; "startDate" := JStr "2024-01-01T00:00:00Z"]}).

Definition harvest_before_midnight_utc : env * gmap string jsval :=
  (quiet "2024-01-02T09:05:00.000Z" 1704186300000,
   {["phase" := JStr "harvest"; "startDate" := JStr "2024-01-01T00:30:00+01:00"]}).

(** Later start first, by the time the start dates denote. Start dates
    that do not parse are left unconstrained. *)
Definition chronologically_desc `{Host} (a b : Z * phase_log) : Prop :=
  match Date_parse (JStr (start_date a.2)), Date_parse (JStr (start_date b.2)) with
  | Some ta, Some tb => tb <= ta
  | _, _ => True
  end.

(** The fields a write operation takes from its request. *)
Definition accepted_fields (req : request) : list (string * jsval) :=
  let read (o : gmap string jsval) (k : string) := (k, js_get o k) in
  match req with
  | GET_update query =>
      read query <$> ["moisture"; "status"; "sensor1"; "sensor2"; "sensor3"; "sensor4";
                      "sensor5"; "sensor6"; "sensor7"; "sensor8"; "sensor9"]
  | POST_log body => read body <$> ["moisture"; "relayStatus"; "lastSensor"]
  | POST_upload_report body _ => read body <$> ["title"; "description"; "reportDate"]
  | PUT_update_report _ body _ => read body <$> ["title"; "reportDate"; "description"]
  | POST_set_phase body => read body <$> ["phase"; "startDate"]
  | _ => []
  end.

(** A response that returns an identifier and echoes the accepted fields. *)
Definition echoes_write (req : request) (sent : payload) : Prop :=
  is_Some (property "id" sent) ∧
  ∀ k v, (k, v) ∈ accepted_fields req -> property k sent = Some v.

(** The report of the first week, with its picture. *)
Definition week_1 : gmap string jsval :=
  {["title" := JStr "Week 1"; "reportDate" := JStr "2024-06-01"; "description" := JStr "ok"]}.

Definition upload_week_1 : env * request :=
  (quiet "2024-06-01T06:00:00.000Z" 1717221600000,
   POST_upload_report week_1 (Some (Upload "a.png"))).

(** The archive after that upload. *)
Definition archived : state := (serve [upload_week_1] seeded).1.

(** An optional sensor reading as a snapshot shows it: the reading when one
    was submitted and is not empty, the sentinel otherwise. *)
Definition shown (query : gmap string jsval) (k : string) : jsval :=
  match query !! k with
  | Some v => if truthy v then v else JStr "N/A"
  | None => JStr "N/A"
  end.

(** A reading with two sensors, the second one empty. *)
Definition two_sensors : gmap string jsval :=
  {["moisture" := JStr "41"; "status" := JStr "ON";
    "sensor1" := JStr "39"; "sensor2" := JStr ""]}.

(** ** Vocabulary for the remaining handlers *)

(** The entry that [app.post('/log')] pushes. *)
Definition log_entry (e : env) (body : gmap string jsval) : jsval :=
  JObj [("time", JStr (now_iso e));
        ("moisture", js_get body "moisture");
        ("relayStatus", js_get body "relayStatus");
        ("lastSensor", js_get body "lastSensor")].

(** A sequence of log submissions, each with the environment it meets. *)
Definition log_calls (calls : list (env * gmap string jsval)) : list (env * request) :=
  (fun c => (c.1, POST_log c.2)) <$> calls.

(** The requests that write to the report archive. *)
Definition is_report_write (req : request) : bool :=
  match req with
  | POST_upload_report _ _ | PUT_update_report _ _ _ | DELETE_delete_report _ => true
  | _ => false
  end.

(** The requests whose handler runs a statement. *)
Definition uses_database (req : request) : bool :=
  match req with
  | GET_update _ | POST_log _ | GET_data | GET_today_log => false
  | _ => true
  end.

(** A log entry that brings a time of its own. *)
Definition relay_on : env * gmap string jsval :=
  (quiet "2024-06-01T06:00:00.000Z" 1717221600000,
   {["time" := JStr "1999-01-01T00:00:00.000Z"; "moisture" := JNum 41%float;
     "relayStatus" := JStr "ON"; "lastSensor" := JNum 3%float]}).

(** A ledger that holds two rows for the same day. *)
Definition two_rows_today : state :=
  State initial_snapshot [] empty_table empty_table
        (Table {[1 := WaterUsage "2024-06-01" 3.5%float;
                 2 := WaterUsage "2024-06-01" 7.25%float]} 2) ∅ [].

(** An environment whose first statement fails. *)
Definition database_locked : env :=
  Env "2024-06-09T06:00:00.000Z" 1717912800000 "2024-06-09"
      (fun n => match n with O => Some "SQLITE_BUSY: database is locked" | _ => None end)
      None.

(** * Properties *)

(** ** Rowids *)

Lemma greatest_None (l : list Z) : greatest l = None <-> l = [].
Proof. destruct l; simpl; split; congruence. Qed.

Lemma greatest_Some (l : list Z) (k : Z) :
  greatest l = Some k -> k ∈ l ∧ ∀ k', k' ∈ l -> k' <= k.
Proof.
  revert k. induction l as [|a l IH]; intros k; simpl; [discriminate|].
  destruct (greatest l) as [m|] eqn:Hm.
  - intros [= <-]. destruct (IH m eq_refl) as [Hin Hmax]. split.
    + destruct (Z.max_spec a m) as [[_ ->]|[_ ->]]; [right|left]; done.
    + intros k' [->|Hk']%elem_of_cons; [lia|]. specialize (Hmax k' Hk'). lia.
  - intros [= <-]. apply greatest_None in Hm as ->. split; [left|].
    intros k' [->|Hk']%elem_of_cons; [lia|]. by apply elem_of_nil in Hk'.
Qed.

Section tables.
Context {R : Type}.
Implicit Types (t : table R) (r : R) (k : Z).

Lemma rowid_elem_of t k : k ∈ (map_to_list (rows t)).*1 <-> is_Some (rows t !! k).
Proof.
  rewrite list_elem_of_fmap. split.
  - intros [[k' r] [-> Hin]]. apply elem_of_map_to_list in Hin. eauto.
  - intros [r Hr]. exists (k, r). split; [done|]. by apply elem_of_map_to_list.
Qed.

Lemma max_rowid_None t : max_rowid t = None <-> rows t = ∅.
Proof.
  unfold max_rowid. rewrite greatest_None, <- map_to_list_empty_iff.
  split; [apply fmap_nil_inv|by intros ->].
Qed.

Lemma max_rowid_Some t k :
  max_rowid t = Some k ->
  is_Some (rows t !! k) ∧ ∀ k', is_Some (rows t !! k') -> k' <= k.
Proof.
  intros [Hin Hmax]%greatest_Some. split; [by apply rowid_elem_of|].
  intros k' Hk'. by apply Hmax, rowid_elem_of.
Qed.

(** Every rowid present is at most the bound from which AUTOINCREMENT
    counts on. *)
Lemma rowid_le_top t k :
  is_Some (rows t !! k) -> k <= Z.max (seq t) (default 0 (max_rowid t)).
Proof.
  intros Hk. destruct (max_rowid t) as [m|] eqn:Hm; simpl.
  - apply max_rowid_Some in Hm as [_ Hmax]. specialize (Hmax k Hk). lia.
  - apply max_rowid_None in Hm. rewrite Hm, lookup_empty in Hk.
    by destruct Hk.
Qed.

(** An insertion takes a rowid above every rowid present and touches no
    other row. *)
Lemma insert_row_Ok r t t' id :
  insert_row r t = Ok (t', id) ->
  rows t' = <[id := r]> (rows t) ∧ seq t' = id ∧
  ∀ k, is_Some (rows t !! k) -> k < id.
Proof.
  unfold insert_row. case_decide; [discriminate|]. intros [= <- <-].
  simpl. repeat split. intros k Hk%rowid_le_top. lia.
Qed.

Lemma insert_row_fresh r t t' id :
  insert_row r t = Ok (t', id) -> rows t !! id = None.
Proof.
  intros (_ & _ & Hlt)%insert_row_Ok.
  destruct (rows t !! id) eqn:Hid; [|done].
  assert (id < id) by (apply Hlt; eauto). lia.
Qed.

(** [ORDER BY id DESC LIMIT 1] finds the row of greatest rowid. *)
Lemma last_row_Some t k r :
  last_row t = Some (k, r) <->
  rows t !! k = Some r ∧ ∀ k', is_Some (rows t !! k') -> k' <= k.
Proof.
  unfold last_row. split.
  - destruct (max_rowid t) as [m|] eqn:Hm; simpl; [|discriminate].
    destruct (rows t !! m) as [r'|] eqn:Hr; simpl; [|discriminate].
    intros [= <- <-]. split; [done|]. by apply max_rowid_Some in Hm as [_ ?].
  - intros [Hr Hmax]. destruct (max_rowid t) as [m|] eqn:Hm; simpl.
    + apply max_rowid_Some in Hm as [[r' Hm] Hmax'].
      assert (m = k) as -> by (pose proof (Hmax m (mk_is_Some _ _ Hm));
                               pose proof (Hmax' k (mk_is_Some _ _ Hr)); lia).
      by rewrite Hr.
    + apply max_rowid_None in Hm. by rewrite Hm, lookup_empty in Hr.
Qed.

Lemma last_row_None t : last_row t = None <-> rows t = ∅.
Proof.
  split.
  - unfold last_row. destruct (max_rowid t) as [m|] eqn:Hm; simpl.
    + apply max_rowid_Some in Hm as [[r Hr] _]. by rewrite Hr.
    + intros _. by apply max_rowid_None.
  - intros Hempty. unfold last_row.
    by apply max_rowid_None in Hempty as ->.
Qed.

Lemma last_row_insert r t t' id :
  insert_row r t = Ok (t', id) -> last_row t' = Some (id, r).
Proof.
  intros (Hrows & _ & Hlt)%insert_row_Ok. apply last_row_Some.
  rewrite Hrows. split; [apply lookup_insert_eq|].
  intros k'. destruct (decide (k' = id)) as [->|Hne]; [lia|].
  rewrite lookup_insert_ne by done. intros Hk'%Hlt. lia.
Qed.
End tables.

(** ** The server loop *)

Ltac unfold_handlers :=
  unfold get_update, post_log, get_data, get_today_log, post_upload_report,
    get_weekly_reports, put_update_report, delete_delete_report, get_report,
    post_set_phase, get_current_phase, get_phase_logs, get_water_usage_today.

Lemma serve_cons `{Host} e req rest st st' answers :
  serve ((e, req) :: rest) st = (st', answers) ->
  Forall (answered 200) answers ->
  ∃ st1 sent answers1,
    handle e req st = (st1, Response 200 sent) ∧
    serve rest st1 = (st', answers1) ∧
    answers = Response 200 sent :: answers1.
Proof.
  simpl. destruct (handle e req st) as [st1 [status sent|exn]].
  - destruct (serve rest st1) as [st2 answers1] eqn:Hrest. intros [= <- <-] Hall.
    apply Forall_cons in Hall as [[sent' [= -> ->]] _]. eauto 6.
  - intros [= <- <-] Hall. apply Forall_cons in Hall as [[sent' [=]] _].
Qed.

(** When every request of a non-empty sequence was answered 200, the last
    one was handled in some state and produced the final state. *)
Lemma serve_snoc `{Host} reqs e req st st' answers :
  serve (reqs ++ [(e, req)]) st = (st', answers) ->
  Forall (answered 200) answers ->
  ∃ st1 sent, handle e req st1 = (st', Response 200 sent) ∧
              last answers = Some (Response 200 sent).
Proof.
  revert st answers. induction reqs as [|[e0 req0] reqs IH]; intros st answers Hrun Hall.
  - apply serve_cons in Hrun as (st1 & sent & answers1 & Hh & Hrest & ->); [|done].
    simpl in Hrest. injection Hrest as <- <-. eauto.
  - rewrite <- app_comm_cons in Hrun.
    apply serve_cons in Hrun as (st1 & sent & answers1 & Hh & Hrest & ->); [|done].
    apply Forall_cons in Hall as [_ Hall].
    destruct (IH _ _ Hrest Hall) as (st2 & sent2 & Hlast & Hans).
    exists st2, sent2. split; [done|].
    destruct answers1; [discriminate|]. done.
Qed.

(** ** The phase timeline *)

(** What an accepted [setPhase] did. *)
Lemma post_set_phase_200 `{Host} e body st st' sent :
  post_set_phase e body st = (st', Response 200 sent) ->
  ∃ p d id t,
    bind_text (js_get body "phase") = Some p ∧
    bind_text (js_get body "startDate") = Some d ∧
    insert_row (PhaseLog p d) (phase_logs st) = Ok (t, id) ∧
    st' = with_phase_logs t st ∧
    sent = Json (JObj [("id", JNum (number_of_Z id));
                       ("phase", js_get body "phase");
                       ("startDate", js_get body "startDate")]).
Proof.
  unfold post_set_phase.
  destruct (negb (truthy (js_get body "phase")) || negb (truthy (js_get body "startDate")));
    [discriminate|].
  destruct (Date_parse (js_get body "startDate")); [|discriminate].
  destruct (storage_error e 0%nat); [discriminate|].
  destruct (bind_text (js_get body "phase")) as [p|];
    destruct (bind_text (js_get body "startDate")) as [d|]; try discriminate.
  destruct (insert_row (PhaseLog p d) (phase_logs st)) as [[t id]|msg] eqn:Hins;
    [|discriminate].
  intros [= <- <-]. eauto 10.
Qed.

(** In any state, a [currentPhase] that is answered 200 reports the record
    of greatest identifier. *)
Lemma get_current_phase_200 (e : env) (st st' : state) (sent : payload) :
  get_current_phase e st = (st', Response 200 sent) ->
  ∃ id row,
    rows (phase_logs st) !! id = Some row ∧
    (∀ k, is_Some (rows (phase_logs st) !! k) -> k <= id) ∧
    sent = Json (JObj [("phase", JStr (phase row)); ("startDate", JStr (start_date row))]).
Proof.
  unfold get_current_phase. destruct (storage_error e 0%nat); [discriminate|].
  destruct (last_row (phase_logs st)) as [[id row]|] eqn:Hlast; [|discriminate].
  intros [= _ <-]. apply last_row_Some in Hlast as [Hrow Hmax]. eauto.
Qed.

(** C1. After any sequence of accepted [setPhase] calls, whatever the order
    in time of their start dates, [currentPhase] answers with the phase and
    the start date stored by the last call: that call's record holds the
    greatest identifier of the timeline, the identifier returned to the
    caller. *)
Theorem current_phase_is_most_recently_inserted `{Host}
    (st : state) (calls : list (env * gmap string jsval))
    (e : env) (body : gmap string jsval)
    (st' : state) (answers : list outcome) (e' : env) :
  serve (set_phase_calls (calls ++ [(e, body)])) st = (st', answers) ->
  Forall (answered 200) answers ->
  storage_error e' 0%nat = None ->
  ∃ id p d,
    bind_text (js_get body "phase") = Some p ∧
    bind_text (js_get body "startDate") = Some d ∧
    (∀ s, js_get body "phase" = JStr s -> p = s) ∧
    (∀ s, js_get body "startDate" = JStr s -> d = s) ∧
    last answers = Some (Response 200 (Json (JObj [("id", JNum (number_of_Z id));
                                                   ("phase", js_get body "phase");
                                                   ("startDate", js_get body "startDate")]))) ∧
    rows (phase_logs st') !! id = Some (PhaseLog p d) ∧
    (∀ k, is_Some (rows (phase_logs st') !! k) -> k <= id) ∧
    get_current_phase e' st'
      = (st', Response 200 (Json (JObj [("phase", JStr p); ("startDate", JStr d)]))).
Proof.
  unfold set_phase_calls. rewrite fmap_app. simpl. intros Hrun Hall Hstorage.
  destruct (serve_snoc _ _ _ _ _ _ Hrun Hall) as (st1 & sent & Hlast & Hans).
  simpl in Hlast.
  apply post_set_phase_200 in Hlast as (p & d & id & t & Hp & Hd & Hins & -> & ->).
  pose proof (last_row_insert _ _ _ _ Hins) as Hrow.
  exists id, p, d. repeat split; try done.
  - intros s Hs. rewrite Hs, bind_text_string in Hp. congruence.
  - intros s Hs. rewrite Hs, bind_text_string in Hd. congruence.
  - by apply last_row_Some in Hrow as [? _].
  - by apply last_row_Some in Hrow as [_ ?].
  - unfold get_current_phase. rewrite Hstorage. simpl. by rewrite Hrow.
Qed.

(** Two accepted calls, the later one with the earlier start date. *)
Lemma current_phase_is_most_recently_inserted_witness :
  ∃ id : Z,
    rows (phase_logs
            (serve (set_phase_calls [flowering_in_july; vegetative_in_march]) blank).1) !! id
    = Some (PhaseLog "vegetative" "2024-03-15").
Proof.
  destruct (current_phase_is_most_recently_inserted (H := reference_host) blank
              [flowering_in_july] vegetative_in_march.1 vegetative_in_march.2
              _ _ (quiet "2024-07-03T08:00:00.000Z" 1719993600000)
              (surjective_pairing _))
    as (id & p & d & Hp & Hd & _ & _ & _ & Hrow & _).
  - vm_compute. repeat constructor; eexists; reflexivity.
  - reflexivity.
  - exists id. vm_compute in Hp, Hd. injection Hp as <-. injection Hd as <-. exact Hrow.
Defined.

(** C6. [setPhase] with an empty or missing phase, or without a start
    date, is refused as invalid input; with both present and a start date
    that does not parse, it is refused for its format. Either refusal is
    decided before any statement reaches the storage layer: it does not
    depend on what that layer would report, and the state, the phase
    timeline included, is left as it was. *)
Theorem set_phase_validates_before_storage `{Host}
    (e : env) (body : gmap string jsval) (st : state) :
  truthy (js_get body "phase") = false ∨ truthy (js_get body "startDate") = false ∨
    Date_parse (js_get body "startDate") = None ->
  (post_set_phase e body st).1 = st ∧
  (truthy (js_get body "phase") = false ∨ truthy (js_get body "startDate") = false ->
   (post_set_phase e body st).2
     = Response 400 (error_body "Phase and startDate are required")) ∧
  (truthy (js_get body "phase") = true -> truthy (js_get body "startDate") = true ->
   (post_set_phase e body st).2 = Response 400 (error_body "Invalid startDate format")).
Proof.
  intros Hbad. unfold post_set_phase.
  destruct (truthy (js_get body "phase")) eqn:Hp;
    destruct (truthy (js_get body "startDate")) eqn:Hd; simpl;
    try (split; [done|split; [done|intros; discriminate]]).
  destruct Hbad as [?|[?|Hparse]]; try discriminate.
  rewrite Hparse. split; [done|]. split; [intros [?|?]; discriminate|done].
Qed.

(** The scenario [setPhase("flowering", "not-a-date")]. *)
Lemma set_phase_validates_before_storage_witness :
  post_set_phase (quiet "2024-07-01T08:00:00.000Z" 1719820800000)
    {["phase" := JStr "flowering"; "startDate" := JStr "not-a-date"]} blank
  = (blank, Response 400 (error_body "Invalid startDate format")).
Proof.
  pose proof (set_phase_validates_before_storage (H := reference_host)
                (quiet "2024-07-01T08:00:00.000Z" 1719820800000)
                {["phase" := JStr "flowering"; "startDate" := JStr "not-a-date"]} blank
                (or_intror (or_intror eq_refl))) as (Hst & _ & Hfmt).
  rewrite (surjective_pairing (post_set_phase _ _ _)), Hst, Hfmt by reflexivity.
  reflexivity.
Defined.

(** ** The timeline only grows *)

Lemma phase_logs_stage `{Host} e file st : phase_logs (stage e file st) = phase_logs st.
Proof. by destruct file. Qed.

Lemma phase_logs_unlink e path st : phase_logs (unlink e path st) = phase_logs st.
Proof. unfold unlink. by repeat case_match. Qed.

Lemma post_set_phase_grows `{Host} e body st :
  rows (phase_logs st) ⊆ rows (phase_logs (post_set_phase e body st).1).
Proof.
  unfold post_set_phase. repeat case_match; simpl; try done.
  match goal with Hins : insert_row _ _ = Ok _ |- _ =>
    pose proof (insert_row_fresh _ _ _ _ Hins);
    apply insert_row_Ok in Hins as (-> & _ & _) end.
  by apply insert_subseteq.
Qed.

(** No handler removes or rewrites a phase record. *)
Lemma handle_keeps_phase_logs `{Host} e req st :
  rows (phase_logs st) ⊆ rows (phase_logs (handle e req st).1).
Proof.
  destruct req; simpl; try apply post_set_phase_grows; unfold_handlers;
    repeat case_match; simpl;
    rewrite ?phase_logs_unlink, ?phase_logs_stage; done.
Qed.

Lemma serve_keeps_phase_logs `{Host} reqs st :
  rows (phase_logs st) ⊆ rows (phase_logs (serve reqs st).1).
Proof.
  revert st. induction reqs as [|[e req] reqs IH]; intros st; simpl; [done|].
  pose proof (handle_keeps_phase_logs e req st) as Hstep.
  destruct (handle e req st) as [st1 [status sent|exn]]; simpl in *; [|done].
  specialize (IH st1). destruct (serve reqs st1) as [st2 answers]; simpl in *.
  by etrans.
Qed.

(** C7. Once start-up has completed, the phase timeline holds a record: on
    an empty table it is the default "vegetative" phase with the time of
    start-up as its start date. No request removes a phase record, so the
    timeline is still non-empty after any sequence of requests, and
    [currentPhase] never answers 404. *)
Theorem phase_timeline_never_empty `{Host}
    (e0 : env) (disk st0 : state) (reqs : list (env * request)) (e : env) :
  boot e0 disk = Normal st0 ->
  (rows (phase_logs disk) = ∅ ->
   ∃ id, rows (phase_logs st0) = {[id := PhaseLog "vegetative" (now_iso e0)]}) ∧
  rows (phase_logs st0) ⊆ rows (phase_logs (serve reqs st0).1) ∧
  rows (phase_logs (serve reqs st0).1) ≠ ∅ ∧
  ¬ answered 404 (get_current_phase e (serve reqs st0).1).2.
Proof.
  intros Hboot.
  assert (rows (phase_logs st0) ≠ ∅ ∧
          (rows (phase_logs disk) = ∅ ->
           ∃ id, rows (phase_logs st0) = {[id := PhaseLog "vegetative" (now_iso e0)]}))
    as [Hseeded Hfirst].
  { unfold boot in Hboot. simpl in Hboot.
    destruct (storage_error e0 0%nat); [discriminate|].
    case_decide as Hsize.
    - destruct (storage_error e0 1%nat); [discriminate|].
      destruct (insert_row _ _) as [[t id]|] eqn:Hins; [|discriminate].
      injection Hboot as <-. simpl.
      apply insert_row_Ok in Hins as (-> & _ & _). split.
      + apply insert_non_empty.
      + intros ->. exists id. by rewrite insert_empty.
    - injection Hboot as <-. simpl. apply map_size_non_empty_iff in Hsize.
      split; [done|]. intros Hnone. by destruct Hsize. }
  pose proof (serve_keeps_phase_logs reqs st0) as Hgrow.
  assert (rows (phase_logs (serve reqs st0).1) ≠ ∅) as Hne.
  { intros Hempty. rewrite Hempty in Hgrow.
    apply Hseeded. apply map_empty. intros k.
    destruct (rows (phase_logs st0) !! k) eqn:Hk; [|done].
    eapply lookup_weaken in Hk; [|exact Hgrow]. by rewrite lookup_empty in Hk. }
  repeat split; try done.
  intros [sent Hsent]. unfold get_current_phase in Hsent.
  destruct (storage_error e 0%nat); [discriminate|].
  destruct (last_row _) as [[k r]|] eqn:Hlast; [discriminate|].
  by apply last_row_None in Hlast.
Qed.

(** First start on a blank disk, then a sensor update and a phase change. *)
Lemma phase_timeline_never_empty_witness :
  rows (phase_logs seeded) = {[1 := PhaseLog "vegetative" "2023-06-01T00:00:00.000Z"]} ∧
  ¬ answered 404
      (get_current_phase first_start
         (serve [(first_start, GET_update two_sensors);
                 (flowering_in_july.1, POST_set_phase flowering_in_july.2)] seeded).1).2.
Proof.
  split; [reflexivity|].
  apply (phase_timeline_never_empty (H := reference_host) first_start blank seeded
           [(first_start, GET_update two_sensors);
            (flowering_in_july.1, POST_set_phase flowering_in_july.2)] first_start eq_refl).
Defined.

(** ** The history *)

#[local] Instance start_date_desc_trans : Transitive start_date_desc.
Proof. intros a b c Hab Hbc. unfold start_date_desc in *. by etrans. Qed.

#[local] Instance start_date_desc_total : Total start_date_desc.
Proof. intros a b. unfold start_date_desc. apply (total String.le). Qed.

Lemma order_by_start_date_desc_Permutation (t : table phase_log) :
  order_by_start_date_desc t ≡ₚ map_to_list (rows t).
Proof.
  unfold order_by_start_date_desc, scan. by rewrite !merge_sort_Permutation.
Qed.

(** C9, as the code has it. [history] returns every phase record once,
    ordered by the stored start date compared as text, byte by byte, the
    greater text first. *)
Theorem history_is_ordered_by_start_date_text (e : env) (st : state) :
  storage_error e 0%nat = None ->
  ∃ l : list (Z * phase_log),
    get_phase_logs e st
      = (st, Response 200 (Json (JArr ((fun kr => phase_object kr.2) <$> l)))) ∧
    l ≡ₚ map_to_list (rows (phase_logs st)) ∧
    StronglySorted (fun a b => String.le (start_date b.2) (start_date a.2)) l.
Proof.
  intros Hstorage. exists (order_by_start_date_desc (phase_logs st)).
  unfold get_phase_logs. rewrite Hstorage. split; [done|]. split.
  - apply order_by_start_date_desc_Permutation.
  - apply (StronglySorted_merge_sort start_date_desc).
Qed.

Lemma history_is_ordered_by_start_date_text_witness :
  ∃ l : list (Z * phase_log),
    l ≡ₚ map_to_list (rows (phase_logs seeded)) ∧
    StronglySorted (fun a b => String.le (start_date b.2) (start_date a.2)) l.
Proof.
  destruct (history_is_ordered_by_start_date_text first_start seeded eq_refl)
    as (l & _ & Hperm & Hsorted).
  exists l. split; assumption.
Defined.

(** C9, as the claim has it, fails. A start date half an hour before
    midnight UTC, written with the offset [+01:00], is listed before
    midnight UTC itself: as text it is the greater of the two. *)
Lemma history_is_not_chronological :
  let st := (serve (set_phase_calls [flowering_at_midnight_utc; harvest_before_midnight_utc])
               seeded).1 in
  (get_phase_logs first_start st).2
    = Response 200 (Json (JArr
        [JObj [("phase", JStr "harvest"); ("start_date", JStr "2024-01-01T00:30:00+01:00")];
         JObj [("phase", JStr "flowering"); ("start_date", JStr "2024-01-01T00:00:00Z")];
         JObj [("phase", JStr "vegetative"); ("start_date", JStr "2023-06-01T00:00:00.000Z")]])) ∧
  Date_parse (JStr "2024-01-01T00:30:00+01:00") = Some 1704065400000 ∧
  Date_parse (JStr "2024-01-01T00:00:00Z") = Some 1704067200000 ∧
  ¬ Sorted chronologically_desc (order_by_start_date_desc (phase_logs st)).
Proof.
  split; [vm_compute; reflexivity|]. split; [reflexivity|]. split; [reflexivity|].
  assert (order_by_start_date_desc
            (phase_logs (serve (set_phase_calls [flowering_at_midnight_utc;
                                                 harvest_before_midnight_utc]) seeded).1)
          = [(3, PhaseLog "harvest" "2024-01-01T00:30:00+01:00");
             (2, PhaseLog "flowering" "2024-01-01T00:00:00Z");
             (1, PhaseLog "vegetative" "2023-06-01T00:00:00.000Z")]) as ->
    by (vm_compute; reflexivity).
  intros Hsorted. inversion Hsorted as [|? ? _ Hhd]; subst.
  inversion Hhd as [|? ? Hrel]; subst.
  vm_compute in Hrel. by apply Hrel.
Qed.

(** ** Responses of the write operations *)

(** C4, as the code has it. Of the write operations only [setPhase]
    answers a success with the identifier of the record it created and the
    fields it accepted. The sensor update and the log entry are answered
    with a fixed text, the creation, update and deletion of a report with a
    fixed message. *)
Theorem write_success_responses `{Host}
    (e : env) (req : request) (st st' : state) (sent : payload) :
  is_write req = true ->
  handle e req st = (st', Response 200 sent) ->
  match req with
  | POST_set_phase body =>
      echoes_write req sent ∧
      ∃ id, property "id" sent = Some (JNum (number_of_Z id)) ∧
            rows (phase_logs st) !! id = None ∧
            is_Some (rows (phase_logs st') !! id)
  | GET_update _ => sent = Text "Data received"
  | POST_log _ => sent = Text "Log received"
  | POST_upload_report _ _ => sent = message_body "Report saved successfully"
  | PUT_update_report _ _ _ => sent = message_body "Report updated successfully"
  | DELETE_delete_report _ => sent = message_body "Report deleted successfully"
  | _ => True
  end.
Proof.
  intros Hwrite Hrun. destruct req; try discriminate Hwrite; simpl in Hrun.
  - unfold get_update in Hrun. by case_match; simplify_eq.
  - unfold post_log in Hrun. by simplify_eq.
  - unfold post_upload_report in Hrun. by repeat case_match; simplify_eq.
  - unfold put_update_report in Hrun. by repeat case_match; simplify_eq.
  - unfold delete_delete_report in Hrun. by repeat case_match; simplify_eq.
  - apply post_set_phase_200 in Hrun as (p & d & id & t & _ & _ & Hins & -> & ->).
    split.
    + split; [by eexists|]. intros k v. simpl.
      rewrite !elem_of_cons, elem_of_nil. intros [[= -> ->]|[[= -> ->]|[]]]; done.
    + exists id. split; [done|]. split; [by eapply insert_row_fresh|].
      apply insert_row_Ok in Hins as (Hrows & _ & _). simpl. rewrite Hrows.
      rewrite lookup_insert_eq. by eexists.
Qed.

Lemma write_success_responses_witness :
  ∃ sent, (handle flowering_in_july.1 (POST_set_phase flowering_in_july.2) seeded).2
            = Response 200 sent ∧
          echoes_write (POST_set_phase flowering_in_july.2) sent.
Proof.
  eexists. split; [reflexivity|].
  apply (write_success_responses (H := reference_host) flowering_in_july.1
           (POST_set_phase flowering_in_july.2) seeded _ _ eq_refl (surjective_pairing _)).
Defined.

(** C4, as the claim has it, fails: the answer to a successful report
    upload carries a message and nothing else. *)
Lemma upload_report_echoes_nothing :
  is_write upload_week_1.2 = true ∧
  (handle upload_week_1.1 upload_week_1.2 seeded).2
    = Response 200 (Json (JObj [("message", JStr "Report saved successfully")])) ∧
  ¬ echoes_write upload_week_1.2
      (Json (JObj [("message", JStr "Report saved successfully")])).
Proof.
  split; [reflexivity|]. split; [vm_compute; reflexivity|].
  intros [[v Hid] _]. discriminate Hid.
Qed.

(** ** The report archive *)

Lemma weekly_reports_unlink e path st :
  weekly_reports (unlink e path st) = weekly_reports st.
Proof. unfold unlink. by repeat case_match. Qed.

Lemma select_by_id_Some `{Host} {R : Type} id (t : table R) k r :
  select_by_id id t = Some (k, r) <-> rowid_of_text id = Some k ∧ rows t !! k = Some r.
Proof.
  unfold select_by_id. destruct (rowid_of_text id) as [k'|]; simpl.
  - destruct (rows t !! k') as [r'|] eqn:Hr; simpl; split.
    + by intros [= <- <-].
    + intros [[= <-] Hr']. congruence.
    + discriminate.
    + intros [[= <-] Hr']. congruence.
  - split; [discriminate|]. by intros [? _].
Qed.

Lemma select_by_id_None `{Host} {R : Type} id (t : table R) :
  select_by_id id t = None <->
  rowid_of_text id = None ∨ ∃ k, rowid_of_text id = Some k ∧ rows t !! k = None.
Proof.
  unfold select_by_id. destruct (rowid_of_text id) as [k'|]; simpl.
  - destruct (rows t !! k') as [r'|] eqn:Hr; simpl; split.
    + discriminate.
    + intros [?|(k & [= <-] & Hk)]; congruence.
    + eauto.
    + done.
  - split; [eauto|done].
Qed.

(** A generated file name starts with the digits of the clock: it is never
    the empty string. *)
Lemma filename_truthy `{Host} (e : env) (f : upload) : truthy (JStr (filename e f)) = true.
Proof.
  unfold filename, NilZero.string_of_uint.
  by destruct (N.to_uint (now_ms e)).
Qed.

Lemma weekly_reports_stage `{Host} e file st :
  weekly_reports (stage e file st) = weekly_reports st.
Proof. by destruct file. Qed.

Lemma images_stage `{Host} e file st : images st ⊆ images (stage e file st).
Proof. destruct file; simpl; set_solver. Qed.

(** Binding back what was read from a TEXT column stores the same value. *)
Lemma bind_text_js_of_text `{Host} (c : option string) : bind_text (js_of_text c) = c.
Proof. destruct c; simpl; [apply bind_text_string|apply bind_text_null]. Qed.

Lemma update_by_id_lookup `{Host} {R : Type} id (r r' : R) t k :
  select_by_id id t = Some (k, r) -> rows (update_by_id id r' t) !! k = Some r'.
Proof. unfold update_by_id. intros ->. simpl. apply lookup_insert_eq. Qed.

(** What an update does to the image reference of an existing record. *)
Lemma put_update_report_image `{Host}
    (e : env) (id : string) (body : gmap string jsval) (file : option upload)
    (st : state) (k : Z) (r : report) :
  select_by_id id (weekly_reports st) = Some (k, r) ->
  ∃ r', rows (weekly_reports (put_update_report e id body file st).1) !! k = Some r' ∧
        (file = None -> image r' = image r) ∧
        (∀ f sent, file = Some f ->
                   (put_update_report e id body file st).2 = Response 200 sent ->
                   image r' = Some (filename e f)) ∧
        images st ⊆ images (put_update_report e id body file st).1.
Proof.
  intros Hrow. pose proof Hrow as [_ Hr]%select_by_id_Some.
  assert (∀ o, (∀ sent, o ≠ Response 200 sent) ->
               ∃ r', rows (weekly_reports (stage e file st, o).1) !! k = Some r' ∧
                     (file = None -> image r' = image r) ∧
                     (∀ f sent, file = Some f -> (stage e file st, o).2 = Response 200 sent ->
                                image r' = Some (filename e f)) ∧
                     images st ⊆ images (stage e file st, o).1) as Hrefused.
  { intros o Ho. exists r. simpl. rewrite weekly_reports_stage.
    split; [done|]. split; [done|]. split; [|apply images_stage].
    intros f sent _ ->. by destruct (Ho sent). }
  unfold put_update_report.
  destruct (_ || _); [by apply Hrefused|].
  destruct (storage_error e 0%nat); [by apply Hrefused|].
  rewrite weekly_reports_stage, Hrow.
  assert ((if truthy (uploaded_image e file) then Normal (uploaded_image e file)
           else row_image (Some (k, r)))
          = Normal (match file with
                    | Some f => JStr (filename e f)
                    | None => js_of_text (image r)
                    end)) as ->.
  { destruct file as [f|]; unfold uploaded_image; [by rewrite filename_truthy|done]. }
  destruct (storage_error e 1%nat); [by apply Hrefused|].
  unfold bind_report.
  destruct (bind_text (js_get body "title")) as [t|]; [|by apply Hrefused].
  destruct (bind_numeric (js_get body "reportDate")) as [d|]; [|by apply Hrefused].
  simpl. eexists. split; [by eapply update_by_id_lookup|]. simpl.
  split; [|split; [|apply images_stage]].
  - intros ->. apply bind_text_js_of_text.
  - intros f sent -> _. apply bind_text_string.
Qed.

(** An update of an existing report that passes validation and meets no
    storage error is accepted, with or without a new image. *)
Lemma put_update_report_accepts `{Host}
    (e : env) (id : string) (body : gmap string jsval) (file : option upload)
    (st : state) (k : Z) (r : report) :
  select_by_id id (weekly_reports st) = Some (k, r) ->
  truthy (js_get body "title") = true ->
  truthy (js_get body "reportDate") = true ->
  truthy (js_get body "description") = true ->
  storage_error e 0%nat = None ->
  storage_error e 1%nat = None ->
  (put_update_report e id body file st).2
  = Response 200 (message_body "Report updated successfully").
Proof.
  intros Hrow Ht Hd Hdesc Hs0 Hs1. unfold put_update_report.
  rewrite Ht, Hd, Hdesc, Hs0. cbn [negb orb].
  rewrite weekly_reports_stage, Hrow.
  assert (∃ img, (if truthy (uploaded_image e file) then Normal (uploaded_image e file)
                  else row_image (Some (k, r))) = Normal img) as [img ->].
  { destruct (truthy (uploaded_image e file)); simpl; eauto. }
  rewrite Hs1. unfold bind_report.
  destruct (bind_text_truthy _ Ht) as [t ->].
  by destruct (bind_numeric_truthy _ Hd) as [d ->].
Qed.

(** C2. An update of an existing report that passes validation and meets
    no storage error is accepted, with or without a new image. Without a
    new image the image reference of the record stays as it was, whether
    the update is accepted or refused; with a new image an accepted update
    sets the reference to the file name generated for it. The files
    already in the image directory stay there. *)
Theorem update_report_image_reference `{Host}
    (e : env) (id : string) (body : gmap string jsval) (file : option upload)
    (st : state) (k : Z) (r : report) :
  select_by_id id (weekly_reports st) = Some (k, r) ->
  ∃ r', rows (weekly_reports (put_update_report e id body file st).1) !! k = Some r' ∧
        (file = None -> image r' = image r) ∧
        (∀ f sent, file = Some f ->
                   (put_update_report e id body file st).2 = Response 200 sent ->
                   image r' = Some (filename e f)) ∧
        images st ⊆ images (put_update_report e id body file st).1 ∧
        (truthy (js_get body "title") = true ->
         truthy (js_get body "reportDate") = true ->
         truthy (js_get body "description") = true ->
         storage_error e 0%nat = None ->
         storage_error e 1%nat = None ->
         (put_update_report e id body file st).2
           = Response 200 (message_body "Report updated successfully") ∧
         ∀ f, file = Some f -> image r' = Some (filename e f)).
Proof.
  intros Hrow.
  destruct (put_update_report_image e id body file st k r Hrow)
    as (r' & Hr' & Hkeep & Hset & Hfiles).
  exists r'. split; [done|]. split; [done|]. split; [done|]. split; [done|].
  intros Ht Hd Hdesc Hs0 Hs1.
  pose proof (put_update_report_accepts e id body file st k r Hrow Ht Hd Hdesc Hs0 Hs1)
    as Haccepted.
  split; [done|]. intros f Hf. by eapply Hset.
Qed.

(** "Week 1" with its first image, then an update that brings a new one. *)
Lemma update_report_image_reference_witness :
  (put_update_report (quiet "2024-06-08T06:00:00.000Z" 1717826400000) "1"
     (<["title" := JStr "Week 1b"]> week_1) (Some (Upload "b.jpg")) archived).2
  = Response 200 (message_body "Report updated successfully") ∧
  ∃ r', rows (weekly_reports
                (put_update_report (quiet "2024-06-08T06:00:00.000Z" 1717826400000) "1"
                   (<["title" := JStr "Week 1b"]> week_1) (Some (Upload "b.jpg"))
                   archived).1) !! 1
        = Some r' ∧
        image r' = Some "1717826400000.jpg".
Proof.
  pose proof (update_report_image_reference (H := reference_host)
                (quiet "2024-06-08T06:00:00.000Z" 1717826400000) "1"
                (<["title" := JStr "Week 1b"]> week_1) (Some (Upload "b.jpg")) archived 1
                (Report "Week 1" (SqlText "2024-06-01") (Some "1717221600000.png") (Some "ok")))
    as Hupdate.
  destruct Hupdate as (r' & Hrow & _ & _ & _ & Haccepted); [vm_compute; reflexivity|].
  destruct Haccepted as [Hanswer Himage]; [reflexivity..|].
  split; [exact Hanswer|].
  exists r'. split; [exact Hrow|exact (Himage _ eq_refl)].
Defined.

(** C3 fails on the code. An update that passes validation and brings no
    image, addressed to an identifier that has no record, reads [row.image]
    of an undefined [row] inside the driver callback: no response is sent
    and the exception is caught by nothing. *)
Theorem update_of_missing_report_is_uncaught `{Host}
    (e : env) (id : string) (body : gmap string jsval) (st : state) :
  truthy (js_get body "title") = true ->
  truthy (js_get body "reportDate") = true ->
  truthy (js_get body "description") = true ->
  storage_error e 0%nat = None ->
  select_by_id id (weekly_reports st) = None ->
  put_update_report e id body None st
  = (st, Uncaught "TypeError: Cannot read properties of undefined (reading 'image')").
Proof.
  intros Ht Hd Hdesc Hstorage Hrow. unfold put_update_report. simpl.
  by rewrite Ht, Hd, Hdesc, Hstorage, Hrow.
Qed.

Lemma update_of_missing_report_is_uncaught_witness :
  handle (quiet "2024-06-08T06:00:00.000Z" 1717826400000)
    (PUT_update_report "42" week_1 None) archived
  = (archived, Uncaught "TypeError: Cannot read properties of undefined (reading 'image')").
Proof.
  apply (update_of_missing_report_is_uncaught (H := reference_host)
           (quiet "2024-06-08T06:00:00.000Z" 1717826400000) "42" week_1 archived);
    reflexivity.
Defined.

(** That is the only way for a request to go unanswered. *)
Lemma uncaught_only_in_update `{Host} (e : env) (req : request) (st st' : state) exn :
  handle e req st = (st', Uncaught exn) ->
  ∃ id body, req = PUT_update_report id body None ∧
             select_by_id id (weekly_reports st) = None.
Proof.
  destruct req as [| | | | | |id body file| | | | | |]; simpl; unfold_handlers;
    try (intros; repeat case_match; simplify_eq; fail).
  destruct (_ || _); [discriminate|].
  destruct (storage_error e 0%nat); [discriminate|].
  rewrite weekly_reports_stage.
  destruct file as [f|]; unfold uploaded_image.
  - rewrite filename_truthy. by repeat case_match.
  - simpl. destruct (select_by_id id (weekly_reports st)) as [[k r]|] eqn:Hrow; simpl.
    + by repeat case_match.
    + eauto.
Qed.

(** The sibling handlers do look at [row]: reading a missing report is
    answered 404. *)
Lemma get_report_of_missing_report `{Host} (e : env) (id : string) (st : state) :
  storage_error e 0%nat = None ->
  select_by_id id (weekly_reports st) = None ->
  get_report e id st = (st, Response 404 (error_body "Report not found.")).
Proof. intros Hstorage Hrow. unfold get_report. by rewrite Hstorage, Hrow. Qed.



(** C10. Deleting an identifier that has no record is not refused: nothing
    is read, no file is touched, no row is deleted, and the answer is the
    success message of a deletion that found its record. *)
Theorem delete_of_missing_report_succeeds `{Host} (e : env) (id : string) (st : state) :
  select_by_id id (weekly_reports st) = None ->
  storage_error e 0%nat = None ->
  storage_error e 1%nat = None ->
  delete_delete_report e id st
  = (st, Response 200 (message_body "Report deleted successfully")).
Proof.
  intros Hrow Hs0 Hs1. unfold delete_delete_report. rewrite Hs0, Hrow, Hs1.
  f_equal. destruct st as [? ? [reports n] ? ? ? ?]. unfold with_weekly_reports. simpl in *.
  f_equal. unfold delete_by_id.
  apply select_by_id_None in Hrow as [->|(k & -> & Hk)]; [done|].
  simpl in *. by rewrite delete_id.
Qed.

Lemma delete_of_missing_report_succeeds_witness :
  delete_delete_report first_start "42" archived
  = (archived, Response 200 (message_body "Report deleted successfully")).
Proof.
  apply (delete_of_missing_report_succeeds (H := reference_host) first_start "42" archived);
    reflexivity.
Defined.

(** ** The sensor snapshot *)

(** C8. A sensor update without the moisture value or without the relay
    status is refused as invalid and leaves the snapshot as it was. Any
    other update replaces the snapshot: the next read returns the moisture
    and the status as submitted and, for each of the nine sensors, the
    submitted reading, or "N/A" when it was omitted or empty. Nothing of
    the replaced snapshot remains. *)
Theorem sensor_update_replaces_snapshot (query : gmap string jsval) (st : state) :
  (js_get query "moisture" = JUndefined ∨ js_get query "status" = JUndefined ->
   get_update query st = (st, Response 400 (Text "Invalid data"))) ∧
  (js_get query "moisture" ≠ JUndefined -> js_get query "status" ≠ JUndefined ->
   ∃ st', get_update query st = (st', Response 200 (Text "Data received")) ∧
          get_data st'
          = (st', Response 200 (Json (JObj
               [("averageMoisture", js_get query "moisture");
                ("relayStatus", js_get query "status");
                ("sensor1", shown query "sensor1"); ("sensor2", shown query "sensor2");
                ("sensor3", shown query "sensor3"); ("sensor4", shown query "sensor4");
                ("sensor5", shown query "sensor5"); ("sensor6", shown query "sensor6");
                ("sensor7", shown query "sensor7"); ("sensor8", shown query "sensor8");
                ("sensor9", shown query "sensor9")])))).
Proof.
  assert (∀ k, js_or (js_get query k) NA = shown query k) as Hshown.
  { intros k. unfold js_or, js_get, shown, NA. by destruct (query !! k). }
  unfold get_update. split.
  - intros [-> | ->]; simpl; [done|]. by rewrite andb_false_r.
  - intros Hm Hs.
    destruct (js_get query "moisture"), (js_get query "status"); try done;
      simpl; eexists; (split; [reflexivity|]);
      unfold get_data, snapshot_object; simpl; by rewrite !Hshown.
Qed.

Lemma sensor_update_replaces_snapshot_witness :
  (get_data (get_update two_sensors archived).1).2
  = Response 200 (Json (JObj
      [("averageMoisture", JStr "41"); ("relayStatus", JStr "ON");
       ("sensor1", JStr "39"); ("sensor2", JStr "N/A"); ("sensor3", JStr "N/A");
       ("sensor4", JStr "N/A"); ("sensor5", JStr "N/A"); ("sensor6", JStr "N/A");
       ("sensor7", JStr "N/A"); ("sensor8", JStr "N/A"); ("sensor9", JStr "N/A")])).
Proof.
  destruct (proj2 (sensor_update_replaces_snapshot two_sensors archived))
    as (st' & Hupdate & Hdata); [discriminate|discriminate|].
  rewrite Hupdate. cbn [fst]. rewrite Hdata. reflexivity.
Defined.

(** * Further properties of the handlers *)

(** ** The event log *)

(** X1. Log submissions always succeed and are kept in arrival order: after
    a sequence of them, the buffer is the old buffer followed by one entry
    per submission, each stamped with the server's time at its receipt
    (a [time] sent by the caller is not used), and [/today-log] returns
    exactly that. *)
Theorem log_keeps_arrival_order `{Host}
    (calls : list (env * gmap string jsval)) (st : state) :
  logs (serve (log_calls calls) st).1
    = logs st ++ ((fun c => log_entry c.1 c.2) <$> calls) ∧
  (serve (log_calls calls) st).2
    = ((fun _ => Response 200 (Text "Log received")) <$> calls) ∧
  (get_today_log (serve (log_calls calls) st).1).2
    = Response 200 (Json (JArr (logs st ++ ((fun c => log_entry c.1 c.2) <$> calls)))).
Proof.
  assert (logs (serve (log_calls calls) st).1
            = logs st ++ ((fun c => log_entry c.1 c.2) <$> calls) ∧
          (serve (log_calls calls) st).2
            = ((fun _ => Response 200 (Text "Log received")) <$> calls)) as [Hlogs Hans].
  { revert st. induction calls as [|[e body] calls IH]; intros st; simpl.
    - by rewrite app_nil_r.
    - specialize (IH (post_log e body st).1).
      unfold post_log in *. simpl in *.
      destruct (serve (log_calls calls) _) as [st2 answers]; simpl in *.
      destruct IH as [-> ->]. by rewrite <- app_assoc. }
  repeat split; [done|done|]. unfold get_today_log. simpl. by rewrite Hlogs.
Qed.

(** ** Each handler keeps to its own component *)

Lemma stage_frame `{Host} e file st :
  sensorData (stage e file st) = sensorData st ∧ logs (stage e file st) = logs st ∧
  phase_logs (stage e file st) = phase_logs st ∧
  daily_water_usage (stage e file st) = daily_water_usage st ∧
  stderr (stage e file st) = stderr st.
Proof. by destruct file. Qed.

Lemma unlink_frame e path st :
  sensorData (unlink e path st) = sensorData st ∧ logs (unlink e path st) = logs st ∧
  phase_logs (unlink e path st) = phase_logs st ∧
  daily_water_usage (unlink e path st) = daily_water_usage st ∧
  stderr st `prefix_of` stderr (unlink e path st).
Proof.
  unfold unlink. repeat case_match; simpl; repeat split; try done;
    by apply prefix_app_r.
Qed.

(** X2. The five components are independent. The daily water ledger is
    written by no handler; the snapshot only by the sensor update; the log
    buffer only by a log submission; the phase timeline only by
    [/set-phase]; the report table and the image directory only by the
    three report writes. Whatever the request, the error stream only
    grows. *)
Theorem handlers_keep_to_their_component `{Host} (e : env) (req : request) (st : state) :
  daily_water_usage (handle e req st).1 = daily_water_usage st ∧
  ((∀ query, req ≠ GET_update query) -> sensorData (handle e req st).1 = sensorData st) ∧
  ((∀ body, req ≠ POST_log body) -> logs (handle e req st).1 = logs st) ∧
  ((∀ body, req ≠ POST_set_phase body) -> phase_logs (handle e req st).1 = phase_logs st) ∧
  (is_report_write req = false ->
   weekly_reports (handle e req st).1 = weekly_reports st ∧
   images (handle e req st).1 = images st) ∧
  stderr st `prefix_of` stderr (handle e req st).1.
Proof.
  destruct req as [query|body| | |body file| |id body file|id|id|body| | |]; simpl.
  all: try (unfold get_update, post_log, get_data, get_today_log, get_weekly_reports,
              get_report, post_set_phase, get_current_phase, get_phase_logs,
              get_water_usage_today;
            repeat case_match; simpl;
            repeat split; intros; try done; try (by apply prefix_app_r);
            exfalso; naive_solver).
  - destruct (stage_frame e file st) as (Hs & Hl & Hp & Hw & He).
    unfold post_upload_report.
    repeat case_match; simpl; rewrite ?Hs, ?Hl, ?Hp, ?Hw, ?He;
      repeat split; intros; done.
  - destruct (stage_frame e file st) as (Hs & Hl & Hp & Hw & He).
    unfold put_update_report.
    repeat case_match; simpl; rewrite ?Hs, ?Hl, ?Hp, ?Hw, ?He;
      repeat split; intros; done.
  - unfold delete_delete_report.
    repeat case_match; simpl; repeat split; intros; try done;
      try (by apply unlink_frame).
Qed.

Lemma handlers_keep_to_their_component_witness :
  phase_logs (handle upload_week_1.1 upload_week_1.2 seeded).1 = phase_logs seeded.
Proof.
  apply (handlers_keep_to_their_component (H := reference_host)
           upload_week_1.1 upload_week_1.2 seeded).
  intros body. discriminate.
Defined.

(** ** Creating and updating reports *)

Lemma bind_report_Ok `{Host} (a b c d : jsval) (r : report) :
  bind_report a b c d = Ok r <->
  bind_text a = Some (title r) ∧ bind_numeric b = Some (report_date r) ∧
  image r = bind_text c ∧ description r = bind_text d.
Proof.
  unfold bind_report. destruct r as [t dt im ds]; simpl.
  destruct (bind_text a) as [t'|]; [|split; [discriminate|by intros [? _]]].
  destruct (bind_numeric b) as [d'|]; [|split; [discriminate|by intros (_ & ? & _)]].
  split.
  - by intros [= -> -> -> ->].
  - by intros ([= ->] & [= ->] & -> & ->).
Qed.

Lemma bind_text_uploaded_image `{Host} (e : env) (file : option upload) :
  bind_text (uploaded_image e file) = filename e <$> file.
Proof. destruct file; simpl; [apply bind_text_string|apply bind_text_null]. Qed.

Lemma stage_images `{Host} (e : env) (f : upload) (st : state) :
  image_path (filename e f) ∈ images (stage e (Some f) st).
Proof. simpl. set_solver. Qed.

Lemma with_weekly_reports_id (st : state) : with_weekly_reports (weekly_reports st) st = st.
Proof. by destruct st. Qed.

Lemma get_report_of_row `{Host} (e : env) (id : string) (st : state) (k : Z) (r : report) :
  storage_error e 0%nat = None ->
  rowid_of_text id = Some k ->
  rows (weekly_reports st) !! k = Some r ->
  get_report e id st = (st, Response 200 (Json (report_object (k, r)))).
Proof.
  intros Hstorage Hid Hr. unfold get_report. rewrite Hstorage.
  by rewrite (proj2 (select_by_id_Some id (weekly_reports st) k r) (conj Hid Hr)).
Qed.

(** What an accepted upload did. *)
Lemma post_upload_report_200 `{Host}
    (e : env) (body : gmap string jsval) (file : option upload)
    (st st' : state) (sent : payload) :
  post_upload_report e body file st = (st', Response 200 sent) ->
  ∃ k r t,
    bind_report (js_get body "title") (js_get body "reportDate")
      (uploaded_image e file) (js_get body "description") = Ok r ∧
    insert_row r (weekly_reports st) = Ok (t, k) ∧
    st' = with_weekly_reports t (stage e file st).
Proof.
  unfold post_upload_report.
  destruct (storage_error e 0%nat); [discriminate|].
  destruct (bind_report _ _ _ _) as [r|] eqn:Hbind; [|discriminate].
  destruct (insert_row r _) as [[t k]|] eqn:Hins; [|discriminate].
  intros [= <- _]. rewrite weekly_reports_stage in Hins. eauto 6.
Qed.

(** X3. An accepted upload creates one record under an identifier above
    every identifier present and changes no other record. The record holds
    the submitted title, date and description as bound, and as its image
    the generated name of the file sent, or NULL when none was sent; the
    file itself is in the image directory. Reading the new identifier
    afterwards returns that record. *)
Theorem upload_then_get `{Host}
    (e : env) (body : gmap string jsval) (file : option upload)
    (st st' : state) (sent : payload) :
  post_upload_report e body file st = (st', Response 200 sent) ->
  ∃ k r,
    rows (weekly_reports st) !! k = None ∧
    (∀ k', is_Some (rows (weekly_reports st) !! k') -> k' < k) ∧
    rows (weekly_reports st') = <[k := r]> (rows (weekly_reports st)) ∧
    bind_text (js_get body "title") = Some (title r) ∧
    bind_numeric (js_get body "reportDate") = Some (report_date r) ∧
    description r = bind_text (js_get body "description") ∧
    image r = filename e <$> file ∧
    (∀ f, file = Some f -> image_path (filename e f) ∈ images st') ∧
    ∀ e' id, rowid_of_text id = Some k -> storage_error e' 0%nat = None ->
             get_report e' id st' = (st', Response 200 (Json (report_object (k, r)))).
Proof.
  intros (k & r & t & Hbind & Hins & ->)%post_upload_report_200.
  pose proof (insert_row_fresh _ _ _ _ Hins) as Hfresh.
  apply insert_row_Ok in Hins as (Hrows & _ & Hlt).
  apply bind_report_Ok in Hbind as (Ht & Hd & Him & Hdesc).
  exists k, r. simpl. repeat split; try done.
  - by rewrite Him, bind_text_uploaded_image.
  - intros f ->. apply stage_images.
  - intros e' id Hid Hstorage. apply get_report_of_row; [done|done|].
    simpl. rewrite Hrows. apply lookup_insert_eq.
Qed.

Lemma upload_then_get_witness :
  get_report first_start "1" archived
  = (archived,
     Response 200 (Json (report_object
       (1, Report "Week 1" (SqlText "2024-06-01") (Some "1717221600000.png") (Some "ok"))))).
Proof.
  pose proof (upload_then_get (H := reference_host) upload_week_1.1 week_1
                (Some (Upload "a.png")) seeded archived
                (message_body "Report saved successfully")) as Hupload.
  destruct Hupload as (k & r & _ & _ & Hrows & Ht & Hd & Hdesc & Him & _ & Hget);
    [vm_compute; reflexivity|].
  reflexivity.
Defined.

(** X4. The upload handler validates nothing itself. When the title binds
    to NULL, as a missing title does, the insertion fails on the NOT NULL
    constraint: the answer is 500 with the constraint message and no record
    is created, but a file sent along has been stored and stays. *)
Theorem upload_without_title `{Host}
    (e : env) (body : gmap string jsval) (file : option upload) (st : state) :
  storage_error e 0%nat = None ->
  bind_text (js_get body "title") = None ->
  (post_upload_report e body file st).2
    = Response 500 (error_body
        "SQLITE_CONSTRAINT: NOT NULL constraint failed: weekly_reports.title") ∧
  weekly_reports (post_upload_report e body file st).1 = weekly_reports st ∧
  ∀ f, file = Some f ->
       image_path (filename e f) ∈ images (post_upload_report e body file st).1.
Proof.
  intros Hstorage Htitle. unfold post_upload_report, bind_report.
  rewrite Hstorage, Htitle. simpl. split; [done|]. split.
  - apply weekly_reports_stage.
  - intros f ->. apply stage_images.
Qed.

Lemma upload_without_title_witness :
  image_path (filename upload_week_1.1 (Upload "a.png"))
  ∈ images (post_upload_report upload_week_1.1 (delete "title" week_1)
              (Some (Upload "a.png")) seeded).1.
Proof.
  apply (upload_without_title (H := reference_host) upload_week_1.1
           (delete "title" week_1) (Some (Upload "a.png")) seeded);
    reflexivity.
Defined.

(** X5. An update that lacks a title, a date or a description is refused
    with 400 before any statement runs, whatever the storage layer would
    report; the report table is unchanged, but a file sent along has been
    stored and stays. *)
Theorem update_validates_before_storage `{Host}
    (e : env) (id : string) (body : gmap string jsval) (file : option upload) (st : state) :
  truthy (js_get body "title") = false ∨ truthy (js_get body "reportDate") = false ∨
    truthy (js_get body "description") = false ->
  (put_update_report e id body file st).2
    = Response 400 (error_body "Title, date, and description are required.") ∧
  weekly_reports (put_update_report e id body file st).1 = weekly_reports st ∧
  ∀ f, file = Some f ->
       image_path (filename e f) ∈ images (put_update_report e id body file st).1.
Proof.
  intros Hbad. unfold put_update_report.
  assert (negb (truthy (js_get body "title")) || negb (truthy (js_get body "reportDate"))
            || negb (truthy (js_get body "description")) = true) as ->.
  { destruct Hbad as [-> | [-> | ->]]; simpl; by rewrite ?orb_true_r. }
  simpl. split; [done|]. split.
  - apply weekly_reports_stage.
  - intros f ->. apply stage_images.
Qed.

(** The scenario of an update that brings a title only. *)
Lemma update_validates_before_storage_witness :
  (put_update_report first_start "1" {["title" := JStr "Week 1b"]} None archived).2
  = Response 400 (error_body "Title, date, and description are required.").
Proof.
  apply (update_validates_before_storage (H := reference_host) first_start "1"
           {["title" := JStr "Week 1b"]} None archived).
  right. left. reflexivity.
Defined.



(** X7. An accepted update of an existing report rewrites that record and
    no other, and issues no identifier: title, date and description become
    the submitted values as bound, and a later read of the identifier
    returns the rewritten record. *)
Theorem update_then_get `{Host}
    (e : env) (id : string) (body : gmap string jsval) (file : option upload)
    (st st' : state) (sent : payload) (k : Z) (r : report) :
  select_by_id id (weekly_reports st) = Some (k, r) ->
  put_update_report e id body file st = (st', Response 200 sent) ->
  ∃ r',
    rows (weekly_reports st') = <[k := r']> (rows (weekly_reports st)) ∧
    seq (weekly_reports st') = seq (weekly_reports st) ∧
    bind_text (js_get body "title") = Some (title r') ∧
    bind_numeric (js_get body "reportDate") = Some (report_date r') ∧
    description r' = bind_text (js_get body "description") ∧
    ∀ e', storage_error e' 0%nat = None ->
          get_report e' id st' = (st', Response 200 (Json (report_object (k, r')))).
Proof.
  intros Hrow. pose proof Hrow as [Hid _]%select_by_id_Some.
  unfold put_update_report.
  destruct (_ || _); [discriminate|].
  destruct (storage_error e 0%nat); [discriminate|].
  rewrite weekly_reports_stage, Hrow.
  destruct (if truthy (uploaded_image e file) then _ else _) as [img|]; [|discriminate].
  destruct (storage_error e 1%nat); [discriminate|].
  destruct (bind_report _ _ img _) as [r'|] eqn:Hbind; [|discriminate].
  intros [= <- _]. apply bind_report_Ok in Hbind as (Ht & Hd & _ & Hdesc).
  exists r'. unfold update_by_id. rewrite Hrow. simpl. repeat split; try done.
  intros e' Hstorage. apply get_report_of_row; [done|done|]. simpl.
  apply lookup_insert_eq.
Qed.

Lemma update_then_get_witness :
  ∃ r', rows (weekly_reports
                (put_update_report first_start "1" (<["title" := JStr "Week 1b"]> week_1)
                   None archived).1)
        = <[1 := r']> (rows (weekly_reports archived)) ∧
        title r' = "Week 1b".
Proof.
  pose proof (update_then_get (H := reference_host) first_start "1"
                (<["title" := JStr "Week 1b"]> week_1) None archived
                (put_update_report first_start "1" (<["title" := JStr "Week 1b"]> week_1)
                   None archived).1
                (message_body "Report updated successfully") 1
                (Report "Week 1" (SqlText "2024-06-01") (Some "1717221600000.png") (Some "ok")))
    as Hupdate.
  destruct Hupdate as (r' & Hrows & _ & Ht & _);
    [vm_compute; reflexivity|vm_compute; reflexivity|].
  exists r'. split; [exact Hrows|].
  assert (bind_text (js_get (<["title" := JStr "Week 1b"]> week_1) "title") = Some "Week 1b")
    as Hbound by reflexivity.
  congruence.
Defined.

(** ** Deleting reports *)

Lemma delete_by_id_missing `{Host} {R : Type} (id : string) (t : table R) :
  select_by_id id t = None -> delete_by_id id t = t.
Proof.
  destruct t as [m n]. unfold delete_by_id.
  intros [->|(k & -> & Hk)]%select_by_id_None; [done|].
  simpl in *. by rewrite delete_id.
Qed.

Lemma select_after_delete `{Host} {R : Type} (id : string) (t : table R) :
  select_by_id id (delete_by_id id t) = None.
Proof.
  apply select_by_id_None. unfold delete_by_id.
  destruct (rowid_of_text id) as [k|]; [|by left].
  right. exists k. split; [done|]. simpl. apply lookup_delete_eq.
Qed.

(** X8. Deleting a report whose image file is present and can be removed
    is answered 200, removes the record and no other, removes that file and
    no other, and writes nothing to the error stream. *)
Theorem delete_removes_record_and_image `{Host}
    (e : env) (id : string) (st : state) (k : Z) (r : report) (name : string) :
  select_by_id id (weekly_reports st) = Some (k, r) ->
  image r = Some name -> name ≠ "" ->
  image_path name ∈ images st ->
  unlink_error e = None ->
  storage_error e 0%nat = None -> storage_error e 1%nat = None ->
  (delete_delete_report e id st).2
    = Response 200 (message_body "Report deleted successfully") ∧
  rows (weekly_reports (delete_delete_report e id st).1)
    = delete k (rows (weekly_reports st)) ∧
  images (delete_delete_report e id st).1 = images st ∖ {[image_path name]} ∧
  stderr (delete_delete_report e id st).1 = stderr st.
Proof.
  intros Hrow Himage Hname Hfile Hunlink Hs0 Hs1.
  pose proof Hrow as [Hid _]%select_by_id_Some.
  unfold delete_delete_report. rewrite Hs0, Hrow.
  destruct r as [t d im ds]. simpl in Himage. subst im.
  assert (truthy (JStr name) = true) as ->.
  { simpl. by destruct (String.eqb_spec name ""). }
  rewrite Hs1. unfold unlink. rewrite Hunlink. rewrite decide_True by done. simpl.
  unfold delete_by_id. by rewrite Hid.
Qed.

Lemma delete_removes_record_and_image_witness :
  images (delete_delete_report first_start "1" archived).1 = images archived ∖ {["public/images/1717221600000.png"]}.
Proof.
  apply (delete_removes_record_and_image (H := reference_host) first_start "1" archived 1
           (Report "Week 1" (SqlText "2024-06-01") (Some "1717221600000.png") (Some "ok"))
           "1717221600000.png"); by vm_compute.
Defined.

(** X9. Deletion is not atomic. When the image file has been removed and
    the DELETE statement then fails, the answer is 500 with the storage
    message, the record is still there and still names the file, and the
    file is gone. *)
Theorem delete_is_not_atomic `{Host}
    (e : env) (id : string) (st : state) (k : Z) (r : report) (name msg : string) :
  select_by_id id (weekly_reports st) = Some (k, r) ->
  image r = Some name -> name ≠ "" ->
  image_path name ∈ images st ->
  unlink_error e = None ->
  storage_error e 0%nat = None -> storage_error e 1%nat = Some msg ->
  (delete_delete_report e id st).2 = Response 500 (error_body msg) ∧
  rows (weekly_reports (delete_delete_report e id st).1) !! k = Some r ∧
  image_path name ∉ images (delete_delete_report e id st).1.
Proof.
  intros Hrow Himage Hname Hfile Hunlink Hs0 Hs1.
  pose proof Hrow as [_ Hr]%select_by_id_Some.
  unfold delete_delete_report. rewrite Hs0, Hrow.
  destruct r as [t d im ds]. simpl in Himage. subst im.
  assert (truthy (JStr name) = true) as ->.
  { simpl. by destruct (String.eqb_spec name ""). }
  rewrite Hs1. unfold unlink. rewrite Hunlink. rewrite decide_True by done. simpl.
  split; [done|]. split; [done|].
  apply not_elem_of_difference. right. by apply elem_of_singleton.
Qed.

Lemma delete_is_not_atomic_witness :
  (delete_delete_report
     (Env "2024-06-09T06:00:00.000Z" 1717912800000 "2024-06-09"
          (fun n => match n with 1%nat => Some "SQLITE_BUSY: database is locked" | _ => None end)
          None) "1" archived).2
  = Response 500 (error_body "SQLITE_BUSY: database is locked").
Proof.
  apply (delete_is_not_atomic (H := reference_host) _ "1" archived 1
           (Report "Week 1" (SqlText "2024-06-01") (Some "1717221600000.png") (Some "ok"))
           "1717221600000.png" "SQLITE_BUSY: database is locked"); by vm_compute.
Defined.

(** X10. Deleting twice is harmless: after a delete that was answered 200,
    the same delete again is answered 200 and changes nothing. *)
Theorem delete_twice `{Host}
    (e e' : env) (id : string) (st st' : state) (sent : payload) :
  delete_delete_report e id st = (st', Response 200 sent) ->
  storage_error e' 0%nat = None -> storage_error e' 1%nat = None ->
  delete_delete_report e' id st'
  = (st', Response 200 (message_body "Report deleted successfully")).
Proof.
  intros Hdel Hs0 Hs1.
  assert (select_by_id id (weekly_reports st') = None) as Hgone.
  { unfold delete_delete_report in Hdel.
    destruct (storage_error e 0%nat); [discriminate|].
    destruct (storage_error e 1%nat); [discriminate|].
    injection Hdel as <- _. simpl.
    repeat case_match; rewrite ?weekly_reports_unlink; apply select_after_delete. }
  unfold delete_delete_report. rewrite Hs0, Hgone, Hs1.
  by rewrite delete_by_id_missing, with_weekly_reports_id.
Qed.

Lemma delete_twice_witness :
  delete_delete_report first_start "1" (delete_delete_report first_start "1" archived).1
  = ((delete_delete_report first_start "1" archived).1,
     Response 200 (message_body "Report deleted successfully")).
Proof.
  apply (delete_twice (H := reference_host) first_start first_start "1" archived _
           (message_body "Report deleted successfully"));
    [vm_compute; reflexivity|reflexivity|reflexivity].
Defined.

(** ** Listing the reports *)

#[local] Instance rowid_le_trans {R : Type} : Transitive (@rowid_le R).
Proof. intros a b c. unfold rowid_le. lia. Qed.

#[local] Instance rowid_le_total {R : Type} : Total (@rowid_le R).
Proof. intros a b. unfold rowid_le. lia. Qed.

Lemma scan_Permutation {R : Type} (t : table R) : scan t ≡ₚ map_to_list (rows t).
Proof. apply merge_sort_Permutation. Qed.

Lemma scan_sorted {R : Type} (t : table R) : StronglySorted rowid_le (scan t).
Proof. apply (StronglySorted_merge_sort rowid_le). Qed.

Lemma elem_of_scan {R : Type} (t : table R) (k : Z) (r : R) :
  (k, r) ∈ scan t <-> rows t !! k = Some r.
Proof. rewrite scan_Permutation. apply elem_of_map_to_list. Qed.

(** X11. [/weekly-reports] returns every report exactly once, in ascending
    order of identifier. *)
Theorem weekly_reports_in_id_order (e : env) (st : state) :
  storage_error e 0%nat = None ->
  ∃ l : list (Z * report),
    get_weekly_reports e st = (st, Response 200 (Json (JArr (report_object <$> l)))) ∧
    l ≡ₚ map_to_list (rows (weekly_reports st)) ∧
    StronglySorted (fun a b => a.1 <= b.1) l.
Proof.
  intros Hstorage. exists (scan (weekly_reports st)).
  unfold get_weekly_reports. rewrite Hstorage.
  split; [done|]. split; [apply scan_Permutation|apply scan_sorted].
Qed.

Lemma weekly_reports_in_id_order_witness :
  ∃ l : list (Z * report),
    l ≡ₚ map_to_list (rows (weekly_reports archived)) ∧
    StronglySorted (fun a b => a.1 <= b.1) l.
Proof.
  destruct (weekly_reports_in_id_order first_start archived eq_refl)
    as (l & _ & Hperm & Hsorted).
  exists l. split; assumption.
Defined.

(** ** The daily water ledger *)

(** The first row of a scan that satisfies a condition is the one of least
    rowid among those that do. *)
Lemma filter_scan_least {R : Type} (P : Z * R -> Prop) `{!∀ x, Decision (P x)}
    (t : table R) (k : Z) (r : R) :
  rows t !! k = Some r -> P (k, r) ->
  (∀ k' r', rows t !! k' = Some r' -> P (k', r') -> k <= k') ->
  ∃ rest, filter P (scan t) = (k, r) :: rest.
Proof.
  intros Hr HP Hleast.
  assert (∀ x, x ∈ scan t -> rows t !! x.1 = Some x.2) as Hin.
  { intros [k' r'] Hx. by apply elem_of_scan. }
  apply elem_of_scan in Hr. pose proof (scan_sorted t) as Hsorted.
  induction (scan t) as [|[k0 r0] l IH]; [by apply elem_of_nil in Hr|].
  apply StronglySorted_cons in Hsorted as [Hhd Hsorted].
  destruct (decide (P (k0, r0))) as [HP0|HP0].
  - rewrite filter_cons_True by done. exists (filter P l). f_equal.
    pose proof (Hin (k0, r0) ltac:(left)) as Hr0. simpl in Hr0.
    assert (k <= k0) by (by eapply Hleast).
    apply elem_of_cons in Hr as [[= -> ->]|Hr]; [done|].
    rewrite Forall_forall in Hhd. specialize (Hhd _ Hr). unfold rowid_le in Hhd.
    simpl in Hhd. assert (k0 = k) as -> by lia.
    specialize (Hin (k, r) ltac:(by right)). simpl in Hin. congruence.
  - rewrite filter_cons_False by done.
    apply elem_of_cons in Hr as [[= -> ->]|Hr]; [done|].
    apply IH; [done| |done]. intros x Hx. apply Hin. by right.
Qed.

(** X12. [/water-usage-today] never reports a missing day as an error:
    with no row for the store's local date it answers a usage of 0.
    Nothing keeps the ledger to one row per day; when several rows carry
    today's date, the usage of the one with the least identifier is
    returned. *)
Theorem water_usage_today (e : env) (st : state) :
  storage_error e 0%nat = None ->
  ∃ x : float,
    get_water_usage_today e st
      = (st, Response 200 (Json (JObj [("waterUsage", JNum x)]))) ∧
    ((∀ k r, rows (daily_water_usage st) !! k = Some r -> date r ≠ today_local e) ->
     x = 0%float) ∧
    (∀ k r, rows (daily_water_usage st) !! k = Some r -> date r = today_local e ->
            (∀ k' r', rows (daily_water_usage st) !! k' = Some r' ->
                      date r' = today_local e -> k <= k') ->
            x = water_usage r).
Proof.
  intros Hstorage. unfold get_water_usage_today. rewrite Hstorage.
  destruct (filter _ (scan (daily_water_usage st))) as [|[k0 r0] rest] eqn:Hfilter.
  - eexists. split; [done|]. split; [done|]. intros k r Hr Hdate Hleast.
    destruct (filter_scan_least (fun kr => date kr.2 = today_local e) _ k r Hr Hdate)
      as [rest Hrest]; [by eauto|]. congruence.
  - eexists. split; [done|]. split.
    + intros Hnone.
      assert ((k0, r0) ∈ filter (fun kr : Z * water_usage_row => date kr.2 = today_local e)
                (scan (daily_water_usage st))) as Hin by (rewrite Hfilter; left).
      apply list_elem_of_filter in Hin as [Hdate Hin]. apply elem_of_scan in Hin.
      by destruct (Hnone _ _ Hin).
    + intros k r Hr Hdate Hleast.
      destruct (filter_scan_least (fun kr => date kr.2 = today_local e) _ k r Hr Hdate)
        as [rest' Hrest]; [by eauto|]. congruence.
Qed.

Lemma water_usage_today_witness :
  get_water_usage_today first_start two_rows_today
  = (two_rows_today, Response 200 (Json (JObj [("waterUsage", JNum 3.5%float)]))).
Proof.
  destruct (water_usage_today first_start two_rows_today eq_refl) as (x & Hget & _ & Hleast).
  rewrite Hget, (Hleast 1 (WaterUsage "2024-06-01" 3.5%float)); [reflexivity..|].
  intros k' r' Hk' _. simpl in Hk'.
  destruct (decide (k' = 1)) as [->|]; [lia|].
  destruct (decide (k' = 2)) as [->|]; [lia|].
  rewrite lookup_insert_ne, lookup_singleton_ne in Hk' by done. discriminate Hk'.
Defined.

(** ** Restarting *)

(** X13. A restart loses the sensor snapshot and the log buffer and keeps
    the three tables and the image directory as they were on disk, except
    that an empty phase timeline is seeded. A timeline that holds a record
    is left alone, so a second start adds no second default phase. *)
Theorem restart_keeps_disk (e : env) (disk st : state) :
  boot e disk = Normal st ->
  sensorData st = initial_snapshot ∧ logs st = [] ∧
  weekly_reports st = weekly_reports disk ∧
  daily_water_usage st = daily_water_usage disk ∧
  images st = images disk ∧
  (rows (phase_logs disk) ≠ ∅ -> phase_logs st = phase_logs disk) ∧
  ∀ e' st2, boot e' st = Normal st2 -> phase_logs st2 = phase_logs st.
Proof.
  assert (∀ e0 d s, boot e0 d = Normal s ->
            sensorData s = initial_snapshot ∧ logs s = [] ∧
            weekly_reports s = weekly_reports d ∧
            daily_water_usage s = daily_water_usage d ∧ images s = images d ∧
            (rows (phase_logs d) ≠ ∅ -> phase_logs s = phase_logs d) ∧
            rows (phase_logs s) ≠ ∅) as Hboot.
  { intros e0 d s. unfold boot. simpl.
    destruct (storage_error e0 0%nat); [discriminate|].
    case_decide as Hsize.
    - destruct (storage_error e0 1%nat); [discriminate|].
      destruct (insert_row _ _) as [[t id]|] eqn:Hins; [|discriminate].
      intros [= <-]. simpl. apply map_size_empty_iff in Hsize.
      apply insert_row_Ok in Hins as (Hrows & _ & _).
      repeat split; try done. rewrite Hrows. apply insert_non_empty.
    - intros [= <-]. simpl. apply map_size_non_empty_iff in Hsize. by repeat split. }
  intros Hstart. destruct (Hboot _ _ _ Hstart) as (Hs & Hl & Hw & Hd & Hi & Hkeep & Hne).
  repeat split; try done.
  intros e' st2 Hagain. by apply (Hboot _ _ _ Hagain).
Qed.

(** A restart after a sensor update on the archive of "Week 1". *)
Lemma restart_keeps_disk_witness :
  ∃ st, boot flowering_in_july.1 (get_update two_sensors archived).1 = Normal st ∧
        sensorData st = initial_snapshot ∧
        weekly_reports st = weekly_reports archived ∧
        phase_logs st = phase_logs seeded.
Proof.
  eexists. split; [reflexivity|].
  destruct (restart_keeps_disk flowering_in_july.1 (get_update two_sensors archived).1 _ eq_refl)
    as (Hs & _ & Hw & _ & _ & Hp & _).
  split; [exact Hs|]. split; [exact Hw|]. apply Hp. by vm_compute.
Defined.

(** ** Identifiers *)

Lemma insert_row_seq {R : Type} (r : R) (t t' : table R) (k : Z) :
  insert_row r t = Ok (t', k) -> seq t < k ∧ seq t' = k.
Proof.
  unfold insert_row. case_decide; [discriminate|]. intros [= <- <-]. simpl. lia.
Qed.

Lemma seq_update_by_id `{Host} {R : Type} (id : string) (r : R) (t : table R) :
  seq (update_by_id id r t) = seq t.
Proof. unfold update_by_id. by repeat case_match. Qed.

Lemma seq_delete_by_id `{Host} {R : Type} (id : string) (t : table R) :
  seq (delete_by_id id t) = seq t.
Proof. unfold delete_by_id. by case_match. Qed.

Lemma handlers_frame_reports `{Host} (e : env) (req : request) (st : state) :
  is_report_write req = false ->
  weekly_reports (handle e req st).1 = weekly_reports st ∧
  images (handle e req st).1 = images st.
Proof.
  destruct req; try discriminate; intros _; simpl; unfold_handlers;
    by repeat case_match.
Qed.

(** No handler lowers the sequence of the report table. *)
Lemma handle_seq_weekly_reports `{Host} (e : env) (req : request) (st : state) :
  seq (weekly_reports st) <= seq (weekly_reports (handle e req st).1).
Proof.
  destruct (decide (is_report_write req = true)) as [Hw|Hw].
  - destruct req; try discriminate Hw; simpl.
    + destruct (post_upload_report e body file st) as [st' [status sent|exn]] eqn:Hup.
      * unfold post_upload_report in Hup.
        repeat case_match; simplify_eq; simpl; rewrite ?weekly_reports_stage; try lia.
        match goal with Hins : insert_row _ _ = Ok _ |- _ =>
          apply insert_row_seq in Hins as [Hlt Heq] end.
        rewrite weekly_reports_stage in Hlt. simpl in *. lia.
      * unfold post_upload_report in Hup. repeat case_match; simplify_eq.
    + unfold put_update_report.
      repeat case_match; simpl; rewrite ?seq_update_by_id, ?weekly_reports_stage; lia.
    + unfold delete_delete_report.
      repeat case_match; simpl;
        rewrite ?seq_delete_by_id, ?weekly_reports_unlink; lia.
  - destruct (handlers_frame_reports e req st) as [-> _]; [|lia].
    by destruct (is_report_write req).
Qed.

Lemma serve_seq_weekly_reports `{Host} (reqs : list (env * request)) (st : state) :
  seq (weekly_reports st) <= seq (weekly_reports (serve reqs st).1).
Proof.
  revert st. induction reqs as [|[e req] reqs IH]; intros st; simpl; [lia|].
  pose proof (handle_seq_weekly_reports e req st) as Hstep.
  destruct (handle e req st) as [st1 [status sent|exn]]; simpl in *; [|lia].
  specialize (IH st1). destruct (serve reqs st1) as [st2 answers]; simpl in *. lia.
Qed.

(** X14. Report identifiers are never reused. Whatever requests are served
    between two accepted uploads, deletions included, the second upload
    gets an identifier greater than the first. *)
Theorem report_ids_never_reused `{Host}
    (e1 e2 : env) (body1 body2 : gmap string jsval) (file1 file2 : option upload)
    (reqs : list (env * request)) (st0 st1 st3 : state) (sent1 sent2 : payload) :
  post_upload_report e1 body1 file1 st0 = (st1, Response 200 sent1) ->
  post_upload_report e2 body2 file2 (serve reqs st1).1 = (st3, Response 200 sent2) ->
  ∃ k1 k2,
    k1 < k2 ∧
    rows (weekly_reports st0) !! k1 = None ∧ is_Some (rows (weekly_reports st1) !! k1) ∧
    rows (weekly_reports (serve reqs st1).1) !! k2 = None ∧
    is_Some (rows (weekly_reports st3) !! k2).
Proof.
  intros (k1 & r1 & t1 & _ & Hins1 & ->)%post_upload_report_200
         (k2 & r2 & t3 & _ & Hins2 & ->)%post_upload_report_200.
  pose proof (serve_seq_weekly_reports reqs
                (with_weekly_reports t1 (stage e1 file1 st0))) as Hmono.
  pose proof (insert_row_fresh _ _ _ _ Hins1) as Hfresh1.
  pose proof (insert_row_fresh _ _ _ _ Hins2) as Hfresh2.
  apply insert_row_seq in Hins1 as Hseq1. apply insert_row_seq in Hins2 as Hseq2.
  apply insert_row_Ok in Hins1 as (Hrows1 & _ & _).
  apply insert_row_Ok in Hins2 as (Hrows2 & _ & _).
  simpl in *. exists k1, k2. repeat split; try done.
  - lia.
  - rewrite Hrows1, lookup_insert_eq. by eexists.
  - rewrite Hrows2, lookup_insert_eq. by eexists.
Qed.

Lemma report_ids_never_reused_witness :
  ∃ k1 k2,
    k1 < k2 ∧
    rows (weekly_reports seeded) !! k1 = None ∧ is_Some (rows (weekly_reports archived) !! k1) ∧
    rows (weekly_reports (serve [(first_start, DELETE_delete_report "1")] archived).1) !! k2
      = None ∧
    is_Some (rows (weekly_reports
                     (post_upload_report first_start week_1 None
                        (serve [(first_start, DELETE_delete_report "1")] archived).1).1) !! k2).
Proof.
  apply (report_ids_never_reused (H := reference_host) upload_week_1.1 first_start
           week_1 week_1 (Some (Upload "a.png")) None
           [(first_start, DELETE_delete_report "1")] seeded archived _
           (message_body "Report saved successfully")
           (message_body "Report saved successfully")); by vm_compute.
Defined.

(** X15. The generated file name is the clock in milliseconds followed by
    the extension. Two accepted uploads that arrive in the same millisecond
    with the same extension therefore create two records that name one and
    the same file. *)
Theorem uploads_in_one_millisecond_share_a_file `{Host}
    (e1 e2 : env) (body1 body2 : gmap string jsval) (f1 f2 : upload)
    (st st1 st2 : state) (sent1 sent2 : payload) :
  post_upload_report e1 body1 (Some f1) st = (st1, Response 200 sent1) ->
  post_upload_report e2 body2 (Some f2) st1 = (st2, Response 200 sent2) ->
  now_ms e1 = now_ms e2 ->
  path_extname (originalname f1) = path_extname (originalname f2) ->
  ∃ k1 k2 r1 r2,
    k1 ≠ k2 ∧
    rows (weekly_reports st2) !! k1 = Some r1 ∧
    rows (weekly_reports st2) !! k2 = Some r2 ∧
    image r1 = Some (filename e1 f1) ∧ image r2 = Some (filename e1 f1).
Proof.
  intros (k1 & r1 & t1 & Hbind1 & Hins1 & ->)%post_upload_report_200
         (k2 & r2 & t2 & Hbind2 & Hins2 & ->)%post_upload_report_200 Hms Hext.
  apply bind_report_Ok in Hbind1 as (_ & _ & Him1 & _).
  apply bind_report_Ok in Hbind2 as (_ & _ & Him2 & _).
  rewrite bind_text_uploaded_image in Him1, Him2. simpl in *.
  pose proof (insert_row_fresh _ _ _ _ Hins2) as Hfresh2.
  apply insert_row_Ok in Hins1 as (Hrows1 & _ & _).
  apply insert_row_Ok in Hins2 as (Hrows2 & _ & _).
  assert (k1 ≠ k2) as Hne.
  { intros ->. by rewrite Hrows1, lookup_insert_eq in Hfresh2. }
  exists k1, k2, r1, r2. repeat split; try done.
  - by rewrite Hrows2, lookup_insert_ne, Hrows1, lookup_insert_eq.
  - by rewrite Hrows2, lookup_insert_eq.
  - rewrite Him2. unfold filename. by rewrite Hms, Hext.
Qed.

Lemma uploads_in_one_millisecond_share_a_file_witness :
  ∃ k1 k2 r1 r2,
    k1 ≠ k2 ∧
    rows (weekly_reports (post_upload_report upload_week_1.1 week_1
                            (Some (Upload "b.png")) archived).1) !! k1 = Some r1 ∧
    rows (weekly_reports (post_upload_report upload_week_1.1 week_1
                            (Some (Upload "b.png")) archived).1) !! k2 = Some r2 ∧
    image r1 = Some "1717221600000.png" ∧ image r2 = Some "1717221600000.png".
Proof.
  apply (uploads_in_one_millisecond_share_a_file (H := reference_host)
           upload_week_1.1 upload_week_1.1 week_1 week_1 (Upload "a.png") (Upload "b.png")
           seeded archived _
           (message_body "Report saved successfully")
           (message_body "Report saved successfully")); by vm_compute.
Defined.

(** ** Storage failures *)

(** X16. When the first statement of a request fails, the handler still
    answers, with 500 or, where its validation refuses the request first,
    with 400, and none of the three tables has changed. *)
Theorem first_statement_failure `{Host} (e : env) (req : request) (st : state) (msg : string) :
  uses_database req = true ->
  storage_error e 0%nat = Some msg ->
  weekly_reports (handle e req st).1 = weekly_reports st ∧
  phase_logs (handle e req st).1 = phase_logs st ∧
  daily_water_usage (handle e req st).1 = daily_water_usage st ∧
  ∃ status sent, (handle e req st).2 = Response status sent ∧ (status = 400 ∨ status = 500)%nat.
Proof.
  intros Hdb Hfail.
  destruct req; try discriminate Hdb; simpl; unfold_handlers; rewrite ?Hfail;
    repeat case_match; simpl;
    rewrite ?weekly_reports_stage, ?phase_logs_stage;
    repeat split; try done; try (destruct file; done); eauto.
Qed.

Lemma first_statement_failure_witness :
  ∃ status sent,
    (handle database_locked GET_current_phase seeded).2 = Response status sent ∧
    (status = 400 ∨ status = 500)%nat.
Proof.
  apply (first_statement_failure (H := reference_host) database_locked GET_current_phase
           seeded "SQLITE_BUSY: database is locked"); reflexivity.
Defined.
